(** * firebase-all: the document client, the session manager and the
      singleton that hands them out

    A shallow embedding of [src/services/firebaseInit.ts],
    [firestoreService.ts], [firestoreServiceInstance.ts] and
    [firebaseAuthService.ts].  The Firebase SDK itself (firebase/app,
    firebase/firestore, firebase/auth, firebase/analytics) is not part of
    the repository; the few primitives the services call are modelled in
    the sections marked "SDK model". *)

From stdpp Require Import base option list strings gmap fin_maps pretty.

Open Scope string_scope.

(** ** JavaScript data *)

(** Field values of a document or of a configuration object. *)
Inductive Value :=
| VNull
| VBool (b : bool)
| VNum (n : Z)
| VStr (s : string).

#[global] Instance Value_eq_dec : EqDecision Value.
Proof. solve_decision. Defined.

(** A plain JS object: field name to value. *)
Abbreviation JsObject := (gmap string Value).

(** Whatever a [catch (error)] clause can receive.  Only [ErrorObject]
    answers true to [error instanceof Error]. *)
Inductive JsThrown :=
| ErrorObject (name message : string)
| ThrownString (s : string)
| ThrownObject (o : JsObject).

Definition instanceofError (error : JsThrown) : bool :=
  match error with
  | ErrorObject _ _ => true
  | _ => false
  end.

(** [new Error(message)] *)
Definition newError (message : string) : JsThrown := ErrorObject "Error" message.

Definition errorMessage (error : JsThrown) : string :=
  match error with
  | ErrorObject _ message => message
  | _ => ""
  end.

(** The string a template literal [`${error}`] splices in:
    [Error.prototype.toString] for errors, the string itself for a thrown
    string, and the default [Object.prototype.toString] otherwise. *)
Definition toString (error : JsThrown) : string :=
  match error with
  | ErrorObject name message =>
      if decide (name = "") then message
      else if decide (message = "") then name
      else name +:+ ": " +:+ message
  | ThrownString s => s
  | ThrownObject _ => "[object Object]"
  end.

(** [{ id: i, ...data }]: the spread comes second, so a field called
    [id] inside [data] wins over the injected one. *)
Definition withId (i : string) (data : JsObject) : JsObject :=
  data ∪ {[ "id" := VStr i ]}.

(** ** Effects: a world threaded through calls that may throw *)

Definition Eff (W A : Type) : Type := W → (JsThrown + A) * W.

Definition ret {W A} (a : A) : Eff W A := λ w, (inr a, w).

Definition throw {W A} (error : JsThrown) : Eff W A := λ w, (inl error, w).

Definition bind {W A B} (m : Eff W A) (k : A → Eff W B) : Eff W B :=
  λ w, match m w with
       | (inr a, w') => k a w'
       | (inl error, w') => (inl error, w')
       end.

(** [try { body } catch (error) { handler }] *)
Definition tryCatch {W A} (body : Eff W A) (handler : JsThrown → Eff W A) : Eff W A :=
  λ w, match body w with
       | (inl error, w') => handler error w'
       | done => done
       end.

Notation "'let*' x ':=' m 'in' k" := (bind m (λ x, k))
  (at level 10, x binder, m at level 100, k at level 200).
Notation "m ';;' k" := (bind m (λ _, k))
  (at level 100, k at level 200, right associativity).

(** ** SDK model: firebase/app and the handle constructors

    Modelled from the spec: the handles are opaque, created once from the
    configuration; the model keeps only what each was derived from.  A
    call that creates one may throw (a configuration the SDK refuses, an
    app that exists already): each call first consults the script of SDK
    answers still to come, where [Some e] makes it throw [e] and [None] or
    an exhausted script lets it return its handle. *)

Record FirebaseApp := { options : JsObject }.
Record Firestore := { firestoreApp : FirebaseApp }.
Record Auth := { authApp : FirebaseApp }.
Record Analytics := { analyticsApp : FirebaseApp }.

(** The handles the calls return when they return. *)
Definition appOf (firebaseConfig : JsObject) : FirebaseApp :=
  {| options := firebaseConfig |}.
Definition firestoreOf (app : FirebaseApp) : Firestore := {| firestoreApp := app |}.
Definition authOf (app : FirebaseApp) : Auth := {| authApp := app |}.
Definition analyticsOf (app : FirebaseApp) : Analytics := {| analyticsApp := app |}.

(** The SDK answers one call. *)
Definition sdkTurn : Eff (list (option JsThrown)) unit :=
  λ answers, match answers with
             | [] => (inr (), [])
             | None :: rest => (inr (), rest)
             | Some error :: rest => (inl error, rest)
             end.

Definition initializeApp (firebaseConfig : JsObject) : Eff (list (option JsThrown)) FirebaseApp :=
  sdkTurn ;; ret (appOf firebaseConfig).
Definition getFirestore (app : FirebaseApp) : Eff (list (option JsThrown)) Firestore :=
  sdkTurn ;; ret (firestoreOf app).
Definition getAuth (app : FirebaseApp) : Eff (list (option JsThrown)) Auth :=
  sdkTurn ;; ret (authOf app).
Definition getAnalytics (app : FirebaseApp) : Eff (list (option JsThrown)) Analytics :=
  sdkTurn ;; ret (analyticsOf app).

(** ** SDK model: firebase/firestore

    Modelled from the spec: a remote store of named collections of
    documents with document-level get/set/update/delete and a query.  Every awaited primitive first consults [pending], the script of
    backend answers still to come: [Some e] makes that primitive reject
    with [e] (network, permission, quota ...), [None] or an exhausted
    script lets it through. *)

(** What [updateDoc] does with a target that does not exist; the spec
    leaves the policy to the backend. *)
Inductive MissingPolicy := CreateOnMissing | RejectMissing.

Inductive ConsoleLine :=
| ConsoleLog (label : string) (payload : list JsObject).

Record Remote := {
  collections : gmap string (gmap string JsObject);
  pending : list (option JsThrown);
  autoIds : nat;
  console : list ConsoleLine;
  onMissing : MissingPolicy
}.

Record CollectionReference := { collFirestore : Firestore; collPath : string }.
Record DocumentReference := { docParent : CollectionReference; docId : string }.
Record DocumentSnapshot := { snapshotData : option JsObject }.
Record QueryDocumentSnapshot := { qdocId : string; qdocData : JsObject }.

(** A store-native constraint ([where], [orderBy], [limit] ...) is passed
    through opaquely; the model keeps only what the store makes of it:
    its effect on the documents a query would otherwise return. *)
Record QueryConstraint := {
  constrain : list QueryDocumentSnapshot → list QueryDocumentSnapshot
}.

Record Query := { querySource : CollectionReference; queryFilters : list QueryConstraint }.

Definition lookupDoc (w : Remote) (path i : string) : option JsObject :=
  collections w !! path ≫= λ c, c !! i.

Definition withCollections (f : gmap string (gmap string JsObject) → gmap string (gmap string JsObject))
    (w : Remote) : Remote :=
  {| collections := f (collections w); pending := pending w; autoIds := autoIds w;
     console := console w; onMissing := onMissing w |}.

Definition withPending (p : list (option JsThrown)) (w : Remote) : Remote :=
  {| collections := collections w; pending := p; autoIds := autoIds w;
     console := console w; onMissing := onMissing w |}.

Definition putDoc (path i : string) (d : JsObject) : Remote → Remote :=
  withCollections (λ cs, <[path := <[i := d]> (default ∅ (cs !! path))]> cs).

Definition dropDoc (path i : string) : Remote → Remote :=
  withCollections (alter (base.delete i) path).

(** The answer of the backend to the next awaited primitive. *)
Definition nextFault (w : Remote) : option JsThrown :=
  match pending w with
  | Some error :: _ => Some error
  | _ => None
  end.

Definition backendTurn : Eff Remote unit :=
  λ w, match pending w with
       | [] => (inr (), w)
       | None :: rest => (inr (), withPending rest w)
       | Some error :: rest => (inl error, withPending rest w)
       end.

Definition collection (db : Firestore) (path : string) : CollectionReference :=
  {| collFirestore := db; collPath := path |}.

(** [doc(db, path, id)] and [doc(collectionRef, id)] *)
Definition doc (db : Firestore) (path i : string) : DocumentReference :=
  {| docParent := collection db path; docId := i |}.
Definition docIn (collectionRef : CollectionReference) (i : string) : DocumentReference :=
  {| docParent := collectionRef; docId := i |}.

(** [doc(collectionRef)]: a reference with a store-generated identifier. *)
Definition docAuto (collectionRef : CollectionReference) : Eff Remote DocumentReference :=
  λ w, (inr (docIn collectionRef ("auto-" +:+ pretty (autoIds w))),
        {| collections := collections w; pending := pending w; autoIds := S (autoIds w);
           console := console w; onMissing := onMissing w |}).

Definition setDoc (ref : DocumentReference) (data : JsObject) : Eff Remote unit :=
  backendTurn ;;
  λ w, (inr (), putDoc (collPath (docParent ref)) (docId ref) data w).

Definition getDoc (ref : DocumentReference) : Eff Remote DocumentSnapshot :=
  backendTurn ;;
  λ w, (inr {| snapshotData := lookupDoc w (collPath (docParent ref)) (docId ref) |}, w).

(** Field-level merge: the fields of [data] overwrite, the others stay. *)
Definition updateDoc (ref : DocumentReference) (data : JsObject) : Eff Remote unit :=
  backendTurn ;;
  λ w, match lookupDoc w (collPath (docParent ref)) (docId ref) with
       | Some old => (inr (), putDoc (collPath (docParent ref)) (docId ref) (data ∪ old) w)
       | None =>
           match onMissing w with
           | CreateOnMissing => (inr (), putDoc (collPath (docParent ref)) (docId ref) data w)
           | RejectMissing =>
               (inl (ErrorObject "FirebaseError" ("No document to update: " +:+ docId ref)), w)
           end
       end.

Definition deleteDoc (ref : DocumentReference) : Eff Remote unit :=
  backendTurn ;;
  λ w, (inr (), dropDoc (collPath (docParent ref)) (docId ref) w).

Definition snapshotExists (s : DocumentSnapshot) : bool :=
  bool_decide (is_Some (snapshotData s)).

(** A collection reference is itself a query, without filters. *)
Definition asQuery (collectionRef : CollectionReference) : Query :=
  {| querySource := collectionRef; queryFilters := [] |}.

(** [query(q, ...constraints)] adds the constraints to those of [q]. *)
Definition query (q : Query) (constraints : list QueryConstraint) : Query :=
  {| querySource := querySource q; queryFilters := queryFilters q ++ constraints |}.

(** The documents of the collection, with the constraints of the query
    applied in the order they were given. *)
Definition matching (q : Query) (w : Remote) : list QueryDocumentSnapshot :=
  foldl (λ docs constraint, constrain constraint docs)
    ((λ p, {| qdocId := p.1; qdocData := p.2 |}) <$>
       map_to_list (default ∅ (collections w !! collPath (querySource q))))
    (queryFilters q).

(** [getDocs(q).docs] *)
Definition getDocs (q : Query) : Eff Remote (list QueryDocumentSnapshot) :=
  backendTurn ;;
  λ w, (inr (matching q w), w).

Definition consoleLog (label : string) (payload : list JsObject) : Eff Remote unit :=
  λ w, (inr (),
        {| collections := collections w; pending := pending w; autoIds := autoIds w;
           console := console w ++ [ConsoleLog label payload]; onMissing := onMissing w |}).

(** ** The document client: [FirestoreService] *)

(** [catch (error) { throw new Error(`<prefix>${error}`) }] *)
Definition rethrow {W A} (prefix : string) (error : JsThrown) : Eff W A :=
  throw (newError (prefix +:+ toString error)).

(** A [customId?: string] is used when truthy: neither undefined nor the
    empty string. *)
Definition truthyString (s : option string) : option string :=
  match s with
  | Some i => if decide (i = "") then None else Some i
  | None => None
  end.

Module FirestoreService.

Record t := { db : Firestore }.

(** [new FirestoreService(firestoreInstance)] *)
Definition new (firestoreInstance : Firestore) : t := {| db := firestoreInstance |}.

Definition create (this : t) (collectionName : string) (data : JsObject)
    (customId : option string) : Eff Remote JsObject :=
  tryCatch
    (let collectionRef := collection (db this) collectionName in
     let* docRef := match truthyString customId with
                    | Some i => ret (docIn collectionRef i)
                    | None => docAuto collectionRef
                    end in
     setDoc docRef data ;;
     ret (withId (docId docRef) data))
    (rethrow "Error creating document: ").

Definition read (this : t) (collectionName documentId : string)
    : Eff Remote (option JsObject) :=
  tryCatch
    (let docRef := doc (db this) collectionName documentId in
     let* docSnap := getDoc docRef in
     if snapshotExists docSnap then ret (snapshotData docSnap) else ret None)
    (rethrow "Error reading document: ").

Definition update (this : t) (collectionName documentId : string) (data : JsObject)
    : Eff Remote JsObject :=
  tryCatch
    (let docRef := doc (db this) collectionName documentId in
     updateDoc docRef data ;;
     let* docSnap := getDoc docRef in
     ret (withId (docId docRef) (default ∅ (snapshotData docSnap))))
    (rethrow "Error updating document: ").

Definition delete (this : t) (collectionName documentId : string) : Eff Remote unit :=
  tryCatch
    (let docRef := doc (db this) collectionName documentId in
     deleteDoc docRef)
    (rethrow "Error deleting document: ").

Definition getAll (this : t) (collectionName : string) : Eff Remote (list JsObject) :=
  tryCatch
    (let* querySnapshot := getDocs (asQuery (collection (db this) collectionName)) in
     let documents := (λ d, withId (qdocId d) (qdocData d)) <$> querySnapshot in
     consoleLog "Documents" documents ;;
     ret documents)
    (rethrow "Error getting all documents: ").

Definition query (this : t) (collectionName : string) (conditions : list QueryConstraint)
    : Eff Remote (list JsObject) :=
  tryCatch
    (let q := query (asQuery (collection (db this) collectionName)) conditions in
     let* querySnapshot := getDocs q in
     ret ((λ d, withId (qdocId d) (qdocData d)) <$> querySnapshot))
    (rethrow "Error querying documents: ").

End FirestoreService.

(** ** The collection-scoped client: [FirestoreServiceInstance] *)

Module FirestoreServiceInstance.

Record t := { db : Firestore; collectionName : string }.

Definition new (firestoreInstance : Firestore) (collectionName : string) : t :=
  {| db := firestoreInstance; collectionName := collectionName |}.

Definition create (this : t) (data : JsObject) (customId : option string)
    : Eff Remote JsObject :=
  tryCatch
    (let collectionRef := collection (db this) (collectionName this) in
     let* docRef := match truthyString customId with
                    | Some i => ret (docIn collectionRef i)
                    | None => docAuto collectionRef
                    end in
     setDoc docRef data ;;
     ret (withId (docId docRef) data))
    (rethrow "Error creating document: ").

Definition read (this : t) (documentId : string) : Eff Remote (option JsObject) :=
  tryCatch
    (let docRef := doc (db this) (collectionName this) documentId in
     let* docSnap := getDoc docRef in
     if snapshotExists docSnap then ret (snapshotData docSnap) else ret None)
    (rethrow "Error reading document: ").

Definition update (this : t) (documentId : string) (data : JsObject) : Eff Remote JsObject :=
  tryCatch
    (let docRef := doc (db this) (collectionName this) documentId in
     updateDoc docRef data ;;
     let* docSnap := getDoc docRef in
     ret (withId (docId docRef) (default ∅ (snapshotData docSnap))))
    (rethrow "Error updating document: ").

Definition delete (this : t) (documentId : string) : Eff Remote unit :=
  tryCatch
    (let docRef := doc (db this) (collectionName this) documentId in
     deleteDoc docRef)
    (rethrow "Error deleting document: ").

Definition getAll (this : t) : Eff Remote (list JsObject) :=
  tryCatch
    (let* querySnapshot := getDocs (asQuery (collection (db this) (collectionName this))) in
     let documents := (λ d, withId (qdocId d) (qdocData d)) <$> querySnapshot in
     ret documents)
    (rethrow "Error getting all documents: ").

Definition query (this : t) (conditions : list QueryConstraint) : Eff Remote (list JsObject) :=
  tryCatch
    (let q := query (asQuery (collection (db this) (collectionName this))) conditions in
     let* querySnapshot := getDocs q in
     ret ((λ d, withId (qdocId d) (qdocData d)) <$> querySnapshot))
    (rethrow "Error querying documents: ").

End FirestoreServiceInstance.

(** ** SDK model: firebase/auth

    Modelled from the spec: the identity backend owns the current session;
    an interactive sign-in either rejects with a provider error or resolves
    with the user of the new session.  [issued] lists every call that
    reached the backend, oldest first. *)

Inductive AuthProvider :=
| GoogleAuthProvider
| FacebookAuthProvider
| GithubAuthProvider
| TwitterAuthProvider.

Record User := {
  uid : string;
  email : option string;
  displayName : option string;
  photoURL : option string;
  emailVerified : bool
}.

Record UserCredential := { user : User }.

Inductive AuthCall :=
| SignInWithPopup (auth : Auth) (provider : AuthProvider).

Record Identity := {
  currentUser : option User;
  popup : AuthProvider → JsThrown + User;
  issued : list AuthCall
}.

Definition signInWithPopup (auth : Auth) (provider : AuthProvider) : Eff Identity UserCredential :=
  λ w, let called := (issued w ++ [SignInWithPopup auth provider])%list in
       match popup w provider with
       | inl error =>
           (inl error, {| currentUser := currentUser w; popup := popup w; issued := called |})
       | inr u =>
           (inr {| user := u |}, {| currentUser := Some u; popup := popup w; issued := called |})
       end.

(** *** The other calls of firebase/auth

    Modelled from the spec: every other call of the session manager is one
    request to the identity backend, which either rejects it with a
    provider error or accepts it.  [verdict] is the backend's answer to
    each request, [accountOf] the user it holds for an e-mail address, and
    [requests] the requests that reached it, oldest first.  An accepted
    sign-up or sign-in opens the session of that user, an accepted sign-out
    closes it, accepted profile and e-mail updates show on the user. *)

Inductive AuthRequest :=
| CreateUserWithEmailAndPassword (auth : Auth) (email password : string)
| SignInWithEmailAndPassword (auth : Auth) (email password : string)
| SignOut (auth : Auth)
| SendEmailVerification (user : User)
| SendPasswordResetEmail (auth : Auth) (email : string)
| UpdateProfile (user : User) (displayName photoURL : option string)
| UpdateEmail (user : User) (newEmail : string)
| UpdatePassword (user : User) (newPassword : string).

Record AuthBackend := {
  session : Identity;
  verdict : AuthRequest → option JsThrown;
  accountOf : string → User;
  requests : list AuthRequest
}.

Definition withSession (u : option User) (w : AuthBackend) : AuthBackend :=
  {| session := {| currentUser := u; popup := popup (session w); issued := issued (session w) |};
     verdict := verdict w; accountOf := accountOf w; requests := requests w |}.

(** One round trip to the backend. *)
Definition request (r : AuthRequest) : Eff AuthBackend unit :=
  λ w, let w' := {| session := session w; verdict := verdict w; accountOf := accountOf w;
                    requests := (requests w ++ [r])%list |} in
       match verdict w r with
       | Some error => (inl error, w')
       | None => (inr (), w')
       end.

(** [auth.currentUser] *)
Definition authCurrentUser (auth : Auth) : Eff AuthBackend (option User) :=
  λ w, (inr (currentUser (session w)), w).

Definition createUserWithEmailAndPassword (auth : Auth) (email password : string)
    : Eff AuthBackend UserCredential :=
  request (CreateUserWithEmailAndPassword auth email password) ;;
  λ w, (inr {| user := accountOf w email |}, withSession (Some (accountOf w email)) w).

Definition signInWithEmailAndPassword (auth : Auth) (email password : string)
    : Eff AuthBackend UserCredential :=
  request (SignInWithEmailAndPassword auth email password) ;;
  λ w, (inr {| user := accountOf w email |}, withSession (Some (accountOf w email)) w).

Definition signOut (auth : Auth) : Eff AuthBackend unit :=
  request (SignOut auth) ;;
  λ w, (inr (), withSession None w).

Definition sendEmailVerification (u : User) : Eff AuthBackend unit :=
  request (SendEmailVerification u).

Definition sendPasswordResetEmail (auth : Auth) (email : string) : Eff AuthBackend unit :=
  request (SendPasswordResetEmail auth email).

(** [updateProfile(user, { displayName, photoURL })]: an undefined field
    is left as it is. *)
Definition updateProfile (u : User) (newName newPhoto : option string) : Eff AuthBackend unit :=
  request (UpdateProfile u newName newPhoto) ;;
  λ w, (inr (),
        withSession (Some {| uid := uid u; email := email u;
                             displayName := from_option Some (displayName u) newName;
                             photoURL := from_option Some (photoURL u) newPhoto;
                             emailVerified := emailVerified u |}) w).

Definition updateEmail (u : User) (newEmail : string) : Eff AuthBackend unit :=
  request (UpdateEmail u newEmail) ;;
  λ w, (inr (),
        withSession (Some {| uid := uid u; email := Some newEmail;
                             displayName := displayName u; photoURL := photoURL u;
                             emailVerified := emailVerified u |}) w).

Definition updatePassword (u : User) (newPassword : string) : Eff AuthBackend unit :=
  request (UpdatePassword u newPassword).

(** ** The session manager: [FirebaseAuthService] *)

Module FirebaseAuthService.

Record t := { auth : Auth; providers : gmap string AuthProvider }.

Definition new (auth : Auth) : t :=
  {| auth := auth;
     providers := list_to_map [ ("google", GoogleAuthProvider);
                                ("facebook", FacebookAuthProvider);
                                ("github", GithubAuthProvider);
                                ("twitter", TwitterAuthProvider) ] |}.

(** The [switch] compares [error.message] with each label in turn. *)
Definition handleAuthError (error : JsThrown) : JsThrown :=
  let message := "An authentication error occurred" in
  let message :=
    if instanceofError error then
      let m := errorMessage error in
      if String.eqb m "auth/email-already-in-use" then "This email is already registered"
      else if String.eqb m "auth/invalid-email" then "Invalid email format"
      else if String.eqb m "auth/operation-not-allowed" then "Operation not allowed"
      else if String.eqb m "auth/weak-password" then "Password is too weak"
      else if String.eqb m "auth/user-disabled" then "This user account has been disabled"
      else if String.eqb m "auth/user-not-found" then "User not found"
      else if String.eqb m "auth/wrong-password" then "Invalid password"
      else m
    else message in
  newError message.

Definition loginWithProvider (this : t) (providerType : string) : Eff Identity UserCredential :=
  tryCatch
    (match providers this !! providerType with
     | None => throw (newError ("Provider " +:+ providerType +:+ " not supported"))
     | Some provider => signInWithPopup (auth this) provider
     end)
    (λ error, throw (handleAuthError error)).

(** The remaining methods; all share the [catch] of [loginWithProvider]. *)

Definition registerWithEmail (this : t) (email password : string)
    : Eff AuthBackend UserCredential :=
  tryCatch
    (let* userCredential := createUserWithEmailAndPassword (auth this) email password in
     ret userCredential)
    (λ error, throw (handleAuthError error)).

Definition loginWithEmail (this : t) (email password : string)
    : Eff AuthBackend UserCredential :=
  tryCatch
    (signInWithEmailAndPassword (auth this) email password)
    (λ error, throw (handleAuthError error)).

Definition logout (this : t) : Eff AuthBackend unit :=
  tryCatch
    (signOut (auth this))
    (λ error, throw (handleAuthError error)).

Definition sendVerificationEmail (this : t) : Eff AuthBackend unit :=
  tryCatch
    (let* user := authCurrentUser (auth this) in
     match user with
     | None => throw (newError "No user is currently signed in")
     | Some u => sendEmailVerification u
     end)
    (λ error, throw (handleAuthError error)).

Definition resetPassword (this : t) (email : string) : Eff AuthBackend unit :=
  tryCatch
    (sendPasswordResetEmail (auth this) email)
    (λ error, throw (handleAuthError error)).

Definition updateUserProfile (this : t) (displayName photoURL : option string)
    : Eff AuthBackend unit :=
  tryCatch
    (let* user := authCurrentUser (auth this) in
     match user with
     | None => throw (newError "No user is currently signed in")
     | Some u => updateProfile u displayName photoURL
     end)
    (λ error, throw (handleAuthError error)).

Definition updateUserEmail (this : t) (newEmail : string) : Eff AuthBackend unit :=
  tryCatch
    (let* user := authCurrentUser (auth this) in
     match user with
     | None => throw (newError "No user is currently signed in")
     | Some u => updateEmail u newEmail
     end)
    (λ error, throw (handleAuthError error)).

Definition updateUserPassword (this : t) (newPassword : string) : Eff AuthBackend unit :=
  tryCatch
    (let* user := authCurrentUser (auth this) in
     match user with
     | None => throw (newError "No user is currently signed in")
     | Some u => updatePassword u newPassword
     end)
    (λ error, throw (handleAuthError error)).

Definition getCurrentUser (this : t) (w : AuthBackend) : option User :=
  currentUser (session w).

End FirebaseAuthService.

(** ** The lifecycle manager: [FirebaseInit] *)

Module FirebaseInit.

(** [oid] is the identity of the object: the rank of the [new] that made
    it.  Two objects built from equal configurations still differ. *)
Record t := {
  oid : nat;
  app : FirebaseApp;
  db : Firestore;
  auth : Auth;
  firestoreService : FirestoreService.t;
  analytics : Analytics;
  authService : FirebaseAuthService.t
}.

(** The static field [FirebaseInit.instance], the allocator, and the
    answers the SDK still has to give. *)
Record Statics := {
  instance : option t;
  allocated : nat;
  sdk : list (option JsThrown)
}.

Definition uninitialised (answers : list (option JsThrown)) : Statics :=
  {| instance := None; allocated := 0; sdk := answers |}.

(** The body of the private constructor, for the object numbered [n].
    None of the SDK calls is guarded: the first that throws ends it. *)
Definition constructor (n : nat) (firebaseConfig : JsObject)
    : Eff (list (option JsThrown)) t :=
  let* app := initializeApp firebaseConfig in
  let* db := getFirestore app in
  let* auth := getAuth app in
  let* analytics := getAnalytics app in
  ret {| oid := n; app := app; db := db; auth := auth;
         firestoreService := FirestoreService.new db;
         analytics := analytics;
         authService := FirebaseAuthService.new auth |}.

(** [firebaseConfig?: object]: [None] is the omitted argument; an object
    is always truthy.  The static field is assigned only if [new] returns:
    a constructor that throws leaves it unset. *)
Definition getInstance (firebaseConfig : option JsObject) : Eff Statics t :=
  λ st, match instance st with
        | Some existing => (inr existing, st)
        | None =>
            match firebaseConfig with
            | None => (inl (newError "Firebase config is required for initialization"), st)
            | Some config =>
                match constructor (allocated st) config (sdk st) with
                | (inr made, answers) =>
                    (inr made,
                     {| instance := Some made; allocated := S (allocated st); sdk := answers |})
                | (inl error, answers) =>
                    (inl error,
                     {| instance := None; allocated := S (allocated st); sdk := answers |})
                end
            end
        end.

Definition getFirestoreService (this : t) : FirestoreService.t := firestoreService this.
Definition getFirestoreServiceInstance (this : t) (collectionName : string)
    : FirestoreServiceInstance.t :=
  FirestoreServiceInstance.new (db this) collectionName.
Definition getFirestore (this : t) : Firestore := db this.
Definition getAuth (this : t) : Auth := auth this.
Definition getApp (this : t) : FirebaseApp := app this.
Definition getAnalytics (this : t) : Analytics := analytics this.
Definition getAuthService (this : t) : FirebaseAuthService.t := authService this.

End FirebaseInit.

(** The interface [FirebaseConfig]: six mandatory strings and an optional
    [measurementId]. *)
Record FirebaseConfig := {
  apiKey : string;
  authDomain : string;
  projectId : string;
  storageBucket : string;
  messagingSenderId : string;
  appId : string;
  measurementId : option string
}.

(** The object a value of that interface is at run time. *)
Definition configObject (config : FirebaseConfig) : JsObject :=
  let fields : JsObject :=
    list_to_map [ ("apiKey", VStr (apiKey config));
                  ("authDomain", VStr (authDomain config));
                  ("projectId", VStr (projectId config));
                  ("storageBucket", VStr (storageBucket config));
                  ("messagingSenderId", VStr (messagingSenderId config));
                  ("appId", VStr (appId config)) ] in
  match measurementId config with
  | Some m => <["measurementId" := VStr m]> fields
  | None => fields
  end.


(** A run of successive calls, each on the world the previous one left. *)
Fixpoint runAll {W A} (calls : list (Eff W A)) (w : W) : list (JsThrown + A) * W :=
  match calls with
  | [] => ([], w)
  | call :: rest =>
      let '(r, w') := call w in
      let '(rs, w'') := runAll rest w' in
      (r :: rs, w'')
  end.

(** ** Vocabulary of the properties *)

Definition configRequired : JsThrown :=
  newError "Firebase config is required for initialization".


(** A configuration object with every mandatory field but [storageBucket]. *)
Definition incompleteConfig : JsObject :=
  list_to_map [ ("apiKey", VStr "tu-api-key");
                ("authDomain", VStr "tu-auth-domain");
                ("projectId", VStr "tu-project-id");
                ("messagingSenderId", VStr "tu-messaging-sender-id");
                ("appId", VStr "tu-app-id") ].

(** The configuration of the usage example. *)
Definition exampleConfig : FirebaseConfig :=
  {| apiKey := "tu-api-key"; authDomain := "tu-auth-domain"; projectId := "tu-project-id";
     storageBucket := "tu-storage-bucket"; messagingSenderId := "tu-messaging-sender-id";
     appId := "tu-app-id"; measurementId := None |}.

(** The error a call raised, if it raised one. *)
Definition failure {W A} (r : (JsThrown + A) * W) : option JsThrown :=
  match r.1 with
  | inl error => Some error
  | inr _ => None
  end.

(** The world once the backend has answered one primitive. *)
Definition settle (w : Remote) : Remote := withPending (tail (pending w)) w.

(** The backend lets the next [n] primitives through. *)
Definition calm (n : nat) (w : Remote) : bool :=
  forallb (λ answer, bool_decide (answer = None)) (take n (pending w)).

(** [needle] occurs somewhere inside [hay]. *)
Fixpoint occursIn (needle hay : string) : bool :=
  String.prefix needle hay ||
  match hay with
  | EmptyString => false
  | String _ rest => occursIn needle rest
  end.

(** The closed set of provider identifiers. *)
Definition supportedProviders : list string := [ "google"; "facebook"; "github"; "twitter" ].

(** The normalization table, as the design document words it: backend
    code, stable message. *)
Definition normalizationTable : list (string * string) :=
  [ ("email-already-in-use", "This email is already registered");
    ("invalid-email", "Invalid email format");
    ("operation-not-allowed", "Operation not allowed");
    ("weak-password", "Password is too weak");
    ("user-disabled", "This user account has been disabled");
    ("user-not-found", "User not found");
    ("wrong-password", "Invalid password") ].

(** A backend code as the auth SDK spells it, in its [auth/] namespace. *)
Definition authCode (code : string) : string := "auth/" +:+ code.

(** An empty store whose backend answers according to [script]. *)
Definition emptyRemote (script : list (option JsThrown)) (policy : MissingPolicy) : Remote :=
  {| collections := ∅; pending := script; autoIds := 0; console := []; onMissing := policy |}.

Definition permissionDenied : JsThrown :=
  ErrorObject "FirebaseError" "Missing or insufficient permissions.".

(** The partial-update example: a document [{a: 1, b: 2}] and the
    partial data [{b: 3}]. *)
Definition sampleData : JsObject := {[ "a" := VNum 1; "b" := VNum 2 ]}.
Definition samplePatch : JsObject := {[ "b" := VNum 3 ]}.

(** A store with two users, the backend answering. *)
Definition sampleRemote : Remote :=
  {| collections :=
       {[ "users" := {[ "u1" := ({[ "name" := VStr "John Doe" ]} : JsObject);
                        "u2" := ({[ "name" := VStr "Jane Doe" ]} : JsObject) ]} ]};
     pending := []; autoIds := 0; console := []; onMissing := RejectMissing |}.

(** The error of the methods that need a session. *)
Definition noSession : JsThrown := newError "No user is currently signed in".

(** The seven backend codes, as the [switch] spells them. *)
Definition rawCodes : list string := (λ entry, authCode entry.1) <$> normalizationTable.

(** The backend once request [r] has reached it. *)
Definition reached (r : AuthRequest) (w : AuthBackend) : AuthBackend :=
  {| session := session w; verdict := verdict w; accountOf := accountOf w;
     requests := (requests w ++ [r])%list |}.

(** The outcome of a method whose request [r] the backend rejected with
    [e]: the normalized error, with the request on record. *)
Definition turnedDown {A} (e : JsThrown) (r : AuthRequest) (w : AuthBackend)
    : (JsThrown + A) * AuthBackend :=
  (inl (FirebaseAuthService.handleAuthError e), reached r w).

(** The object the constructor returns when every SDK call returns. *)
Definition built (n : nat) (firebaseConfig : JsObject) : FirebaseInit.t :=
  {| FirebaseInit.oid := n;
     FirebaseInit.app := appOf firebaseConfig;
     FirebaseInit.db := firestoreOf (appOf firebaseConfig);
     FirebaseInit.auth := authOf (appOf firebaseConfig);
     FirebaseInit.firestoreService := FirestoreService.new (firestoreOf (appOf firebaseConfig));
     FirebaseInit.analytics := analyticsOf (appOf firebaseConfig);
     FirebaseInit.authService := FirebaseAuthService.new (authOf (appOf firebaseConfig)) |}.

(** The first error among the next [n] answers of the SDK, if any. *)
Fixpoint firstFault (n : nat) (answers : list (option JsThrown)) : option JsThrown :=
  match n, answers with
  | S m, None :: rest => firstFault m rest
  | S _, Some error :: _ => Some error
  | _, _ => None
  end.

(** The answers left once the SDK has run into that error, or has
    answered all [n] calls. *)
Fixpoint afterCalls (n : nat) (answers : list (option JsThrown)) : list (option JsThrown) :=
  match n, answers with
  | S m, None :: rest => afterCalls m rest
  | S _, Some _ :: rest => rest
  | _, _ => answers
  end.

(** A configuration with no [appId], and errors of the kind the SDK
    throws in a run that starts with it: analytics refuses the app, and a
    second [initializeApp] with other options refuses to replace the
    first. *)
Definition configWithoutAppId : JsObject :=
  list_to_map [ ("apiKey", VStr "tu-api-key");
                ("authDomain", VStr "tu-auth-domain");
                ("projectId", VStr "tu-project-id");
                ("storageBucket", VStr "tu-storage-bucket");
                ("messagingSenderId", VStr "tu-messaging-sender-id") ].

Definition noAppId : JsThrown :=
  ErrorObject "FirebaseError" "Analytics: no appId in the app options (analytics/no-app-id).".

Definition duplicateApp : JsThrown :=
  ErrorObject "FirebaseError" "Firebase: Firebase App named '[DEFAULT]' already exists with different options or config (app/duplicate-app).".

(** The error the auth SDK throws for a backend code: the code is in its
    [code] property, which the session manager never reads; its message
    is the code wrapped as below. *)
Definition firebaseError (code : string) : JsThrown :=
  ErrorObject "FirebaseError" ("Firebase: Error (" +:+ code +:+ ").").

(** The instances a run handed out. *)
Fixpoint handedOut {A} (results : list (JsThrown + A)) : list A :=
  match results with
  | [] => []
  | inr a :: rest => a :: handedOut rest
  | inl _ :: rest => handedOut rest
  end.

Definition sampleUser : User :=
  {| uid := "u-1"; email := Some "john@example.com"; displayName := None;
     photoURL := None; emailVerified := false |}.

(** An identity backend that rejects everything with [error]; [who] is
    the current user. *)
Definition refusing (error : JsThrown) (who : option User) : AuthBackend :=
  {| session := {| currentUser := who; popup := λ _, inl error; issued := [] |};
     verdict := λ _, Some error;
     accountOf := λ _, sampleUser;
     requests := [] |}.

(** An identity backend that accepts everything. *)
Definition accepting (who : option User) : AuthBackend :=
  {| session := {| currentUser := who; popup := λ _, inr sampleUser; issued := [] |};
     verdict := λ _, None;
     accountOf := λ _, sampleUser;
     requests := [] |}.

(** * Properties *)

(** ** Lifecycle manager *)

Section Singleton.
Import FirebaseInit.

Lemma runAll_app {W A} (xs ys : list (Eff W A)) (w : W) :
  runAll (xs ++ ys) w =
    let '(rs, w') := runAll xs w in
    let '(rs', w'') := runAll ys w' in
    ((rs ++ rs')%list, w'').
Proof.
  revert w. induction xs as [|x xs IH]; intros w; simpl.
  - by destruct (runAll ys w).
  - destruct (x w) as [r w1]. rewrite IH.
    destruct (runAll xs w1) as [rs w2]. by destruct (runAll ys w2).
Qed.

Lemma handedOut_replicate_inr {A} (n : nat) (a : A) :
  handedOut (replicate n (inr a : JsThrown + A)) = replicate n a.
Proof. induction n as [|n IH]; [done|]. simpl. by rewrite IH. Qed.

(** The constructor ends at the first SDK call that throws, with that
    error; if none of the four does, it returns the object. *)
Lemma constructor_outcome (n : nat) (config : JsObject) (answers : list (option JsThrown)) :
  constructor n config answers =
    (match firstFault 4 answers with
     | Some e => inl e
     | None => inr (built n config)
     end, afterCalls 4 answers).
Proof.
  destruct answers as [|[e1|] [|[e2|] [|[e3|] [|[e4|] rest]]]]; reflexivity.
Qed.

Lemma getInstance_established (st : Statics) (existing : t) (arg : option JsObject) :
  instance st = Some existing → getInstance arg st = (inr existing, st).
Proof. intros H. unfold getInstance. by rewrite H. Qed.

Lemma getInstance_unconfigured (st : Statics) :
  instance st = None → getInstance None st = (inl configRequired, st).
Proof. intros H. unfold getInstance. by rewrite H. Qed.

Lemma getInstance_built (st : Statics) (config : JsObject) :
  instance st = None → firstFault 4 (sdk st) = None →
  getInstance (Some config) st =
    (inr (built (allocated st) config),
     {| instance := Some (built (allocated st) config);
        allocated := S (allocated st);
        sdk := afterCalls 4 (sdk st) |}).
Proof.
  intros H Hq. unfold getInstance. by rewrite H, constructor_outcome, Hq.
Qed.

Lemma getInstance_thrown (st : Statics) (config : JsObject) (e : JsThrown) :
  instance st = None → firstFault 4 (sdk st) = Some e →
  getInstance (Some config) st =
    (inl e,
     {| instance := None; allocated := S (allocated st); sdk := afterCalls 4 (sdk st) |}).
Proof.
  intros H Hq. unfold getInstance. by rewrite H, constructor_outcome, Hq.
Qed.

Lemma run_established (st : Statics) (existing : t) (args : list (option JsObject)) :
  instance st = Some existing →
  runAll (getInstance <$> args) st = (replicate (length args) (inr existing), st).
Proof.
  intros H. induction args as [|a args IH]; [done|].
  rewrite fmap_cons. cbn [runAll length replicate].
  rewrite (getInstance_established _ _ a H). by rewrite IH.
Qed.

(** Whatever was handed out during a run that began without an instance
    is the object the static field holds at its end. *)
Lemma run_hands_out_the_stored (args : list (option JsObject)) (st : Statics) :
  instance st = None →
  ∀ this, this ∈ handedOut (runAll (getInstance <$> args) st).1 →
          instance (runAll (getInstance <$> args) st).2 = Some this.
Proof.
  revert st. induction args as [|[config|] args IH]; intros st Hnone this.
  - intros Hin. by apply elem_of_nil in Hin.
  - rewrite fmap_cons. cbn [runAll].
    destruct (firstFault 4 (sdk st)) as [e|] eqn:Hq.
    + rewrite (getInstance_thrown st config e) by done.
      set (st1 := {| instance := None; allocated := S (allocated st);
                     sdk := afterCalls 4 (sdk st) |}).
      specialize (IH st1 eq_refl this).
      destruct (runAll (getInstance <$> args) st1) as [rs st2]. exact IH.
    + rewrite getInstance_built by done.
      set (made := built (allocated st) config).
      set (st1 := {| instance := Some made; allocated := S (allocated st);
                     sdk := afterCalls 4 (sdk st) |}).
      rewrite (run_established st1 made) by done. cbn [fst snd handedOut].
      rewrite handedOut_replicate_inr.
      intros [->|[-> _]%elem_of_replicate]%elem_of_cons; done.
  - rewrite fmap_cons. cbn [runAll].
    rewrite getInstance_unconfigured by done.
    specialize (IH st Hnone this).
    destruct (runAll (getInstance <$> args) st) as [rs st2]. exact IH.
Qed.

(** C1, as worded, does not hold: the first call with a configuration
    object may construct nothing.  Here analytics refuses the app of a
    configuration without [appId]: the call raises that error and the
    static field stays unset, so the next call runs the constructor again
    (and this time [initializeApp] refuses).  Two constructor runs, no
    instance. *)
Lemma getInstance_first_config_may_build_nothing :
  runAll (getInstance <$> [Some configWithoutAppId; Some (configObject exampleConfig)])
    (uninitialised [None; None; None; Some noAppId; Some duplicateApp])
  = ([inl noAppId; inl duplicateApp],
     {| instance := None; allocated := 2; sdk := [] |}).
Proof. reflexivity. Qed.

(** C1, amended. Along every sequence of calls to [getInstance] that
    begins without an instance: a call without configuration, while there
    is no instance, fails with the configuration error; a call with a
    configuration, while there is no instance, runs the constructor, and
    either every SDK call returns, and the object is stored and returned,
    or one throws, and the call raises that error and stores nothing; once
    an instance is stored every later call, whatever its argument, returns
    that very object.  So all the objects a run hands out are one and the
    same, the one the static field holds. *)
Theorem getInstance_hands_out_one_instance (args : list (option JsObject)) (st : Statics) :
  instance st = None →
  (∀ this, this ∈ handedOut (runAll (getInstance <$> args) st).1 →
           instance (runAll (getInstance <$> args) st).2 = Some this) ∧
  getInstance None st = (inl configRequired, st) ∧
  (∀ config, firstFault 4 (sdk st) = None →
     getInstance (Some config) st =
       (inr (built (allocated st) config),
        {| instance := Some (built (allocated st) config);
           allocated := S (allocated st);
           sdk := afterCalls 4 (sdk st) |})) ∧
  (∀ config e, firstFault 4 (sdk st) = Some e →
     getInstance (Some config) st =
       (inl e,
        {| instance := None; allocated := S (allocated st);
           sdk := afterCalls 4 (sdk st) |})) ∧
  (∀ (st' : Statics) (existing : t) (later : list (option JsObject)),
     instance st' = Some existing →
     runAll (getInstance <$> later) st' = (replicate (length later) (inr existing), st')).
Proof.
  intros Hnone. split; [by apply run_hands_out_the_stored|].
  split; [by apply getInstance_unconfigured|].
  split; [intros config Hq; by apply getInstance_built|].
  split; [intros config e Hq; by apply getInstance_thrown|].
  intros st' existing later H. by apply run_established.
Qed.

Lemma getInstance_hands_out_one_instance_witness :
  instance (runAll (getInstance <$> [None; Some incompleteConfig; Some ∅; None])
              (uninitialised [])).2
    = Some (built 0 incompleteConfig) ∧
  getInstance (Some incompleteConfig) (uninitialised [None; None; Some noAppId])
    = (inl noAppId, {| instance := None; allocated := 1; sdk := [] |}).
Proof.
  split.
  - apply (proj1 (getInstance_hands_out_one_instance
                    [None; Some incompleteConfig; Some ∅; None] (uninitialised []) eq_refl)).
    simpl. set_solver.
  - apply (proj1 (proj2 (proj2 (proj2 (getInstance_hands_out_one_instance
                    [] (uninitialised [None; None; Some noAppId]) eq_refl))))).
    reflexivity.
Defined.

End Singleton.

(** C9. Once an instance exists, a call to [getInstance] returns it and
    leaves the static state as it was, whatever argument it is given; so
    after a first construction from [first], a call with another
    configuration [other] (and any calls after it) discards its argument,
    and the store, auth and analytics handles are still the ones derived
    from [first]. *)
Theorem getInstance_later_calls_change_nothing :
  (∀ (st : FirebaseInit.Statics) (existing : FirebaseInit.t) (later : option JsObject),
      FirebaseInit.instance st = Some existing →
      FirebaseInit.getInstance later st = (inr existing, st)) ∧
  (∀ (st st1 : FirebaseInit.Statics) (first other : JsObject) (made : FirebaseInit.t)
     (rest : list (option JsObject)),
      FirebaseInit.instance st = None →
      FirebaseInit.getInstance (Some first) st = (inr made, st1) →
      FirebaseInit.instance st1 = Some made ∧
      runAll (FirebaseInit.getInstance <$> (Some other :: rest)) st1 =
        (replicate (S (length rest)) (inr made), st1) ∧
      options (FirebaseInit.getApp made) = first ∧
      FirebaseInit.getFirestore made = firestoreOf (appOf first) ∧
      FirebaseInit.getAuth made = authOf (appOf first) ∧
      FirebaseInit.getAnalytics made = analyticsOf (appOf first)).
Proof.
  split.
  - intros st existing later H. by apply getInstance_established.
  - intros st st1 first other made rest Hnone Hfirst.
    destruct (firstFault 4 (FirebaseInit.sdk st)) as [e|] eqn:Hq.
    + by rewrite (getInstance_thrown st first e) in Hfirst.
    + rewrite getInstance_built in Hfirst by done. injection Hfirst as <- <-.
      split; [done|]. split; [|done].
      by apply (run_established _ (built (FirebaseInit.allocated st) first)).
Qed.

Lemma getInstance_later_calls_change_nothing_witness :
  FirebaseInit.getInstance (Some (∅ : JsObject))
    {| FirebaseInit.instance := Some (built 0 incompleteConfig);
       FirebaseInit.allocated := 1; FirebaseInit.sdk := [] |} =
  (inr (built 0 incompleteConfig),
   {| FirebaseInit.instance := Some (built 0 incompleteConfig);
      FirebaseInit.allocated := 1; FirebaseInit.sdk := [] |}) ∧
  FirebaseInit.getFirestore (built 0 incompleteConfig) = firestoreOf (appOf incompleteConfig).
Proof.
  split.
  - apply (proj1 getInstance_later_calls_change_nothing). reflexivity.
  - apply (proj2 getInstance_later_calls_change_nothing
             (FirebaseInit.uninitialised [])
             {| FirebaseInit.instance := Some (built 0 incompleteConfig);
                FirebaseInit.allocated := 1; FirebaseInit.sdk := [] |}
             incompleteConfig ∅ (built 0 incompleteConfig) []); reflexivity.
Defined.






(** ** Session manager *)

Lemma handleAuthError_passes_through (name message : string) :
  message ∉ (λ entry, authCode entry.1) <$> normalizationTable →
  FirebaseAuthService.handleAuthError (ErrorObject name message) = newError message.
Proof.
  intros H. unfold normalizationTable in H. rewrite !fmap_cons in H.
  repeat (apply not_elem_of_cons in H as [?%String.eqb_neq H]).
  clear H. unfold FirebaseAuthService.handleAuthError. cbn [instanceofError errorMessage].
  by repeat match goal with
            | Hq : String.eqb _ ?label = false |- _ =>
                let literal := eval vm_compute in label in
                change label with literal in Hq; rewrite Hq; clear Hq
            end.
Qed.

(** What the [switch] does recognise: an error whose message is, to the
    letter, one of the seven codes in the SDK's [auth/] namespace gets the
    message the table gives for that code; an error with any other message
    keeps its own message unchanged. *)
Theorem handleAuthError_follows_table :
  (∀ code stable name : string,
      (code, stable) ∈ normalizationTable →
      FirebaseAuthService.handleAuthError (ErrorObject name (authCode code)) = newError stable) ∧
  (∀ name message : string,
      message ∉ (λ entry, authCode entry.1) <$> normalizationTable →
      FirebaseAuthService.handleAuthError (ErrorObject name message) = newError message).
Proof.
  split; [|apply handleAuthError_passes_through].
  intros code stable name H. unfold normalizationTable in H.
  repeat (apply elem_of_cons in H as [[= -> ->]|H]; [reflexivity|]).
  by apply elem_of_nil in H.
Qed.

Lemma handleAuthError_follows_table_witness :
  FirebaseAuthService.handleAuthError (ErrorObject "FirebaseError" (authCode "weak-password"))
    = newError "Password is too weak" ∧
  FirebaseAuthService.handleAuthError (ErrorObject "FirebaseError" "auth/popup-closed-by-user")
    = newError "auth/popup-closed-by-user".
Proof.
  split.
  - apply (proj1 handleAuthError_follows_table). unfold normalizationTable. set_solver.
  - apply (proj2 handleAuthError_follows_table).
    apply (bool_decide_unpack _). by vm_compute.
Defined.

(** C4. The table is not applied to the errors the backend raises.  Such
    an error carries its code in [code] and the message
    [Firebase: Error (<code>).]; the [switch] reads [message], so no case
    matches and the error keeps that message, for the seven known codes as
    for any other.  For [auth/weak-password] the caller gets
    [Firebase: Error (auth/weak-password).], not [Password is too weak]. *)
Theorem handleAuthError_misses_backend_codes :
  (∀ code : string,
      FirebaseAuthService.handleAuthError (firebaseError code)
        = newError ("Firebase: Error (" +:+ code +:+ ").")) ∧
  FirebaseAuthService.handleAuthError (firebaseError (authCode "weak-password"))
    = newError "Firebase: Error (auth/weak-password)." ∧
  FirebaseAuthService.handleAuthError (firebaseError (authCode "weak-password"))
    ≠ newError "Password is too weak".
Proof.
  split; [intros code; reflexivity|]. split; [reflexivity|]. discriminate.
Qed.

(** C10. Anything caught that is not an [Error] instance (a thrown string,
    a plain object) is replaced by an [Error] carrying the fixed generic
    message; nothing of the original value is kept. *)
Theorem handleAuthError_generic_for_non_errors (error : JsThrown) :
  instanceofError error = false →
  FirebaseAuthService.handleAuthError error = newError "An authentication error occurred".
Proof.
  intros H. unfold FirebaseAuthService.handleAuthError. by rewrite H.
Qed.

Lemma handleAuthError_generic_for_non_errors_witness :
  FirebaseAuthService.handleAuthError (ThrownString "auth/invalid-email")
    = newError "An authentication error occurred" ∧
  FirebaseAuthService.handleAuthError (ThrownObject {[ "message" := VStr "boom" ]})
    = newError "An authentication error occurred".
Proof.
  split.
  - apply (handleAuthError_generic_for_non_errors (ThrownString "auth/invalid-email")).
    reflexivity.
  - apply (handleAuthError_generic_for_non_errors (ThrownObject {[ "message" := VStr "boom" ]})).
    reflexivity.
Defined.

Lemma providers_supported (auth : Auth) (providerType : string) :
  providerType ∈ supportedProviders →
  is_Some (FirebaseAuthService.providers (FirebaseAuthService.new auth) !! providerType).
Proof.
  intros H. unfold supportedProviders in H.
  repeat (apply elem_of_cons in H as [->|H]; [by eexists|]).
  by apply elem_of_nil in H.
Qed.

Lemma providers_unsupported (auth : Auth) (providerType : string) :
  providerType ∉ supportedProviders →
  FirebaseAuthService.providers (FirebaseAuthService.new auth) !! providerType = None.
Proof.
  intros H. unfold supportedProviders in H.
  repeat (apply not_elem_of_cons in H as [? H]).
  cbn [FirebaseAuthService.providers FirebaseAuthService.new list_to_map foldr uncurry fst snd].
  by rewrite !lookup_insert_ne, lookup_empty.
Qed.

(** The message of an unsupported provider is none of the backend codes,
    so the normalizer lets it through. *)
Lemma handleAuthError_unsupported (providerType : string) :
  FirebaseAuthService.handleAuthError
    (newError ("Provider " +:+ providerType +:+ " not supported"))
  = newError ("Provider " +:+ providerType +:+ " not supported").
Proof. reflexivity. Qed.

(** C5. A provider identifier outside [google, facebook, github, twitter]
    makes [loginWithProvider] fail with the unsupported-provider error and
    leaves the identity backend as it was: no call reaches it.  An
    identifier inside the set is found in the registry, and exactly one
    sign-in call, with the provider found, is issued. *)
Theorem loginWithProvider_closed_set (auth : Auth) (providerType : string) (w : Identity) :
  (providerType ∉ supportedProviders →
     FirebaseAuthService.loginWithProvider (FirebaseAuthService.new auth) providerType w =
       (inl (newError ("Provider " +:+ providerType +:+ " not supported")), w)) ∧
  (providerType ∈ supportedProviders →
     ∃ provider,
       FirebaseAuthService.providers (FirebaseAuthService.new auth) !! providerType
         = Some provider ∧
       issued (FirebaseAuthService.loginWithProvider
                 (FirebaseAuthService.new auth) providerType w).2
         = (issued w ++ [SignInWithPopup auth provider])%list).
Proof.
  split; intros H.
  - unfold FirebaseAuthService.loginWithProvider, tryCatch.
    rewrite (providers_unsupported auth) by done.
    unfold throw. by rewrite handleAuthError_unsupported.
  - destruct (providers_supported auth providerType H) as [provider Hp].
    exists provider. split; [done|].
    unfold FirebaseAuthService.loginWithProvider, tryCatch. rewrite Hp.
    unfold signInWithPopup. cbn [FirebaseAuthService.auth FirebaseAuthService.new].
    by destruct (popup w provider).
Qed.

Lemma loginWithProvider_closed_set_witness :
  FirebaseAuthService.loginWithProvider (FirebaseAuthService.new (authOf (appOf ∅)))
    "unknown" {| currentUser := None; popup := λ _, inl permissionDenied; issued := [] |} =
    (inl (newError "Provider unknown not supported"),
     {| currentUser := None; popup := λ _, inl permissionDenied; issued := [] |}) ∧
  ∃ provider,
    FirebaseAuthService.providers (FirebaseAuthService.new (authOf (appOf ∅)))
      !! "github" = Some provider ∧
    issued (FirebaseAuthService.loginWithProvider
              (FirebaseAuthService.new (authOf (appOf ∅))) "github"
              {| currentUser := None; popup := λ _, inl permissionDenied; issued := [] |}).2
      = ([] ++ [SignInWithPopup (authOf (appOf ∅)) provider])%list.
Proof.
  split.
  - apply (proj1 (loginWithProvider_closed_set (authOf (appOf ∅)) "unknown"
                    {| currentUser := None; popup := λ _, inl permissionDenied; issued := [] |})).
    apply (bool_decide_unpack _). by vm_compute.
  - apply (proj2 (loginWithProvider_closed_set (authOf (appOf ∅)) "github"
                    {| currentUser := None; popup := λ _, inl permissionDenied; issued := [] |})).
    apply (bool_decide_unpack _). by vm_compute.
Defined.

(** ** Document client *)

Section Backend.

Lemma backendTurn_through (w : Remote) :
  nextFault w = None → backendTurn w = (inr (), settle w).
Proof.
  unfold nextFault, backendTurn, settle, withPending.
  destruct w as [cs [|[e|] rest] n out pol]; simpl; by intros.
Qed.

Lemma backendTurn_reject (w : Remote) (e : JsThrown) :
  nextFault w = Some e → backendTurn w = (inl e, settle w).
Proof.
  unfold nextFault, backendTurn, settle, withPending.
  destruct w as [cs [|[e'|] rest] n out pol]; simpl; by intros [= ->].
Qed.

Lemma lookupDoc_settle (w : Remote) (c i : string) :
  lookupDoc (settle w) c i = lookupDoc w c i.
Proof. reflexivity. Qed.

Lemma lookupDoc_putDoc (w : Remote) (c i : string) (d : JsObject) :
  lookupDoc (putDoc c i d w) c i = Some d.
Proof.
  unfold lookupDoc, putDoc, withCollections; simpl.
  rewrite lookup_insert_eq; simpl. by rewrite lookup_insert_eq.
Qed.

Lemma lookupDoc_putDoc_other (w : Remote) (c i c' i' : string) (d : JsObject) :
  (c, i) ≠ (c', i') → lookupDoc (putDoc c i d w) c' i' = lookupDoc w c' i'.
Proof.
  intros Hne. unfold lookupDoc, putDoc, withCollections; simpl.
  destruct (decide (c = c')) as [<-|Hc].
  - rewrite lookup_insert_eq; simpl.
    rewrite lookup_insert_ne by congruence.
    by destruct (collections w !! c).
  - by rewrite lookup_insert_ne.
Qed.

Lemma calm_step (n : nat) (w : Remote) :
  calm (S n) w = true →
  nextFault w = None ∧ ∀ w', pending w' = tail (pending w) → calm n w' = true.
Proof.
  unfold calm, nextFault. destruct (pending w) as [|[e|] rest]; simpl.
  - intros _. split; [done|]. intros w' ->. by destruct n.
  - done.
  - intros H. split; [done|]. by intros w' ->.
Qed.

(** What [read] answers, in full. *)
Lemma read_outcome (this : FirestoreService.t) (c i : string) (w : Remote) :
  FirestoreService.read this c i w =
    match nextFault w with
    | Some e => (inl (newError ("Error reading document: " +:+ toString e)), settle w)
    | None => (inr (lookupDoc w c i), settle w)
    end.
Proof.
  unfold FirestoreService.read, tryCatch, getDoc, bind.
  destruct (nextFault w) as [e|] eqn:Hf.
  - by rewrite (backendTurn_reject w e).
  - rewrite backendTurn_through by done. cbn [doc collection docParent collPath docId].
    rewrite lookupDoc_settle. unfold snapshotExists; cbn [snapshotData].
    destruct (lookupDoc w c i); by simpl.
Qed.

Lemma matching_unfiltered (collectionRef : CollectionReference) (w : Remote) :
  matching (asQuery collectionRef) w =
    (λ p, {| qdocId := p.1; qdocData := p.2 |}) <$>
      map_to_list (default ∅ (collections w !! collPath collectionRef)).
Proof.
  reflexivity.
Qed.

Lemma getAll_outcome (this : FirestoreService.t) (c : string) (w : Remote) :
  (FirestoreService.getAll this c w).1 =
    match nextFault w with
    | Some e => inl (newError ("Error getting all documents: " +:+ toString e))
    | None => inr ((λ p, withId p.1 p.2) <$> map_to_list (default ∅ (collections w !! c)))
    end.
Proof.
  unfold FirestoreService.getAll, tryCatch, getDocs, consoleLog, bind.
  destruct (nextFault w) as [e|] eqn:Hf.
  - by rewrite (backendTurn_reject w e).
  - rewrite backendTurn_through by done. cbn [fst ret].
    rewrite matching_unfiltered, <- list_fmap_compose. by f_equal.
Qed.

Lemma query_all_outcome (this : FirestoreService.t) (c : string) (w : Remote) :
  (FirestoreService.query this c [] w).1 =
    match nextFault w with
    | Some e => inl (newError ("Error querying documents: " +:+ toString e))
    | None => inr ((λ p, withId p.1 p.2) <$> map_to_list (default ∅ (collections w !! c)))
    end.
Proof.
  unfold FirestoreService.query, tryCatch, getDocs, bind.
  change (query (asQuery ?r) []) with (asQuery r).
  destruct (nextFault w) as [e|] eqn:Hf.
  - by rewrite (backendTurn_reject w e).
  - rewrite backendTurn_through by done. cbn [fst ret].
    rewrite matching_unfiltered, <- list_fmap_compose. by f_equal.
Qed.

Lemma scoped_getAll_result (db : Firestore) (c : string) (w : Remote) :
  (FirestoreServiceInstance.getAll (FirestoreServiceInstance.new db c) w).1 =
    (FirestoreService.getAll (FirestoreService.new db) c w).1.
Proof.
  unfold FirestoreServiceInstance.getAll, FirestoreService.getAll, tryCatch, getDocs,
    consoleLog, bind.
  cbn [FirestoreServiceInstance.db FirestoreServiceInstance.collectionName
       FirestoreServiceInstance.new FirestoreService.db FirestoreService.new].
  by destruct (backendTurn w) as [[e|[]] w'].
Qed.

End Backend.

(** C3. [read] returns the stored document when there is one and the
    explicit absent result (null) when there is none; the only way it
    raises is a rejection by the backend of the underlying [getDoc], which
    it re-raises as the read error.  The collection-scoped client behaves
    the same. *)
Theorem read_absent_is_not_a_failure (db : Firestore) (c i : string) (w : Remote) :
  let generic := FirestoreService.read (FirestoreService.new db) c i w in
  let scoped := FirestoreServiceInstance.read (FirestoreServiceInstance.new db c) i w in
  scoped = generic ∧
  (∀ d, nextFault w = None → lookupDoc w c i = Some d → generic = (inr (Some d), settle w)) ∧
  (nextFault w = None → lookupDoc w c i = None → generic = (inr None, settle w)) ∧
  (∀ e, nextFault w = Some e →
        generic = (inl (newError ("Error reading document: " +:+ toString e)), settle w)) ∧
  (∀ raised, failure generic = Some raised →
        ∃ e, nextFault w = Some e ∧
             raised = newError ("Error reading document: " +:+ toString e)).
Proof.
  intros generic scoped. split; [done|]. subst generic scoped.
  rewrite read_outcome. repeat split.
  - intros d -> ->. done.
  - intros -> ->. done.
  - intros e ->. done.
  - intros raised. destruct (nextFault w) as [e|]; unfold failure; simpl; [|done].
    intros [= <-]. by exists e.
Qed.

Lemma read_absent_is_not_a_failure_witness :
  FirestoreService.read (FirestoreService.new (firestoreOf (appOf ∅)))
    "users" "nobody" (emptyRemote [] RejectMissing)
  = (inr None, settle (emptyRemote [] RejectMissing)) ∧
  FirestoreService.read (FirestoreService.new (firestoreOf (appOf ∅)))
    "users" "nobody" (emptyRemote [Some permissionDenied] RejectMissing)
  = (inl (newError ("Error reading document: " +:+ toString permissionDenied)),
     settle (emptyRemote [Some permissionDenied] RejectMissing)).
Proof.
  split.
  - apply (read_absent_is_not_a_failure (firestoreOf (appOf ∅)) "users" "nobody"
             (emptyRemote [] RejectMissing)); reflexivity.
  - apply (read_absent_is_not_a_failure (firestoreOf (appOf ∅)) "users" "nobody"
             (emptyRemote [Some permissionDenied] RejectMissing)); reflexivity.
Defined.

(** C7. Whatever the collection holds, [query] with an empty list of
    constraints returns a list of documents exactly when [getAll] on that
    collection does, and then the same list, in both clients; when the
    backend answers, that list is the documents of the collection, each
    tagged with its identifier. *)
Theorem query_without_constraints_is_getAll (db : Firestore) (c : string) (w : Remote) :
  let generic := FirestoreService.new db in
  let scoped := FirestoreServiceInstance.new db c in
  (∀ docs, (FirestoreService.query generic c [] w).1 = inr docs ↔
           (FirestoreService.getAll generic c w).1 = inr docs) ∧
  (∀ docs, (FirestoreServiceInstance.query scoped [] w).1 = inr docs ↔
           (FirestoreServiceInstance.getAll scoped w).1 = inr docs) ∧
  (nextFault w = None →
     ∃ docs, (FirestoreService.query generic c [] w).1 = inr docs ∧
             (FirestoreService.getAll generic c w).1 = inr docs ∧
             (FirestoreServiceInstance.query scoped [] w).1 = inr docs ∧
             (FirestoreServiceInstance.getAll scoped w).1 = inr docs ∧
             ∀ document, document ∈ docs ↔
                         ∃ i d, lookupDoc w c i = Some d ∧ document = withId i d).
Proof.
  intros generic scoped.
  change (FirestoreServiceInstance.query scoped [] w)
    with (FirestoreService.query generic c [] w).
  subst generic scoped. rewrite scoped_getAll_result, query_all_outcome, getAll_outcome.
  destruct (nextFault w) as [e|]; (split; [done|]; split; [done|]); [done|].
  intros _. eexists. do 4 (split; [done|]).
  intros document. rewrite list_elem_of_fmap. unfold lookupDoc. split.
  - intros ([i d] & -> & Hin). apply elem_of_map_to_list in Hin.
    exists i, d. split; [|done].
    destruct (collections w !! c) as [docs|]; simpl in *; [done|].
    by rewrite lookup_empty in Hin.
  - intros (i & d & Hl & ->). exists (i, d). split; [done|].
    apply elem_of_map_to_list.
    destruct (collections w !! c) as [docs|]; simpl in *; done.
Qed.

Section Writes.

Lemma update_outcome (this : FirestoreService.t) (c i : string) (old partial : JsObject)
    (w : Remote) :
  lookupDoc w c i = Some old → calm 2 w = true →
  FirestoreService.update this c i partial w =
    (inr (withId i (partial ∪ old)), settle (putDoc c i (partial ∪ old) (settle w))).
Proof.
  intros Hold Hcalm.
  apply calm_step in Hcalm as [Hf1 Hcalm].
  specialize (Hcalm (putDoc c i (partial ∪ old) (settle w)) eq_refl).
  apply calm_step in Hcalm as [Hf2 _].
  unfold FirestoreService.update, tryCatch, updateDoc, getDoc, bind.
  rewrite backendTurn_through by done.
  cbn [doc collection docParent collPath docId].
  rewrite lookupDoc_settle, Hold.
  rewrite backendTurn_through by done.
  rewrite lookupDoc_settle, lookupDoc_putDoc. reflexivity.
Qed.

Lemma create_outcome (this : FirestoreService.t) (c : string) (data : JsObject)
    (customId : option string) (w : Remote) :
  calm 1 w = true →
  ∃ i w1,
    FirestoreService.create this c data customId w = (inr (withId i data), w1) ∧
    lookupDoc w1 c i = Some data ∧
    pending w1 = tail (pending w) ∧
    (∀ j, truthyString customId = Some j → i = j).
Proof.
  intros Hcalm. apply calm_step in Hcalm as [Hf _].
  unfold FirestoreService.create, tryCatch, setDoc, bind.
  destruct (truthyString customId) as [j|].
  - exists j, (putDoc c j data (settle w)). unfold ret.
    rewrite backendTurn_through by done.
    cbn [docIn collection docParent collPath docId].
    split; [done|]. split; [apply lookupDoc_putDoc|]. split; [done|].
    by intros ? [= ->].
  - unfold docAuto.
    set (w0 := {| collections := collections w; pending := pending w;
                  autoIds := S (autoIds w); console := console w;
                  onMissing := onMissing w |}).
    exists ("auto-" +:+ pretty (autoIds w)),
           (putDoc c ("auto-" +:+ pretty (autoIds w)) data (settle w0)).
    rewrite (backendTurn_through w0) by done.
    cbn [docIn collection docParent collPath docId].
    split; [done|]. split; [apply lookupDoc_putDoc|]. split; [done|]. done.
Qed.

End Writes.

(** C6. On a document that exists, [update] stores the field-level merge
    of the partial data into it (a field of the partial data takes its new
    value, every other field keeps the old one, other documents are not
    touched) and returns the merged document as re-read from the store,
    tagged with its identifier; the collection-scoped client does the same.
    In particular a document created from some data and then updated
    comes back as the partial data merged over the created data. *)
Theorem update_merges_fields (db : Firestore) (c : string) :
  (∀ (i : string) (old partial : JsObject) (w : Remote),
      lookupDoc w c i = Some old → calm 2 w = true →
      ∃ w',
        FirestoreService.update (FirestoreService.new db) c i partial w
          = (inr (withId i (partial ∪ old)), w') ∧
        FirestoreServiceInstance.update (FirestoreServiceInstance.new db c) i partial w
          = (inr (withId i (partial ∪ old)), w') ∧
        lookupDoc w' c i = Some (partial ∪ old) ∧
        (∀ k v, partial !! k = Some v → (partial ∪ old) !! k = Some v) ∧
        (∀ k, partial !! k = None → (partial ∪ old) !! k = old !! k) ∧
        (∀ c' i', (c, i) ≠ (c', i') → lookupDoc w' c' i' = lookupDoc w c' i')) ∧
  (∀ (data partial : JsObject) (customId : option string) (w : Remote),
      calm 3 w = true →
      ∃ i w1 w2,
        FirestoreService.create (FirestoreService.new db) c data customId w
          = (inr (withId i data), w1) ∧
        FirestoreService.update (FirestoreService.new db) c i partial w1
          = (inr (withId i (partial ∪ data)), w2)).
Proof.
  split.
  - intros i old partial w Hold Hcalm.
    exists (settle (putDoc c i (partial ∪ old) (settle w))).
    split; [by apply update_outcome|].
    split; [by apply (update_outcome (FirestoreService.new db))|].
    split; [by rewrite lookupDoc_settle, lookupDoc_putDoc|].
    split; [intros k v Hk; by apply lookup_union_Some_l|].
    split; [intros k Hk; by apply lookup_union_r|].
    intros c' i' Hne. by rewrite lookupDoc_settle, lookupDoc_putDoc_other.
  - intros data partial customId w Hcalm.
    apply calm_step in Hcalm as [Hf Hcalm].
    destruct (create_outcome (FirestoreService.new db) c data customId w)
      as (i & w1 & Hcreate & Hstored & Hpending & _).
    { unfold calm. unfold nextFault in Hf. by destruct (pending w) as [|[e|] rest]. }
    exists i, w1, (settle (putDoc c i (partial ∪ data) (settle w1))).
    split; [done|]. apply update_outcome; [done|]. by apply Hcalm.
Qed.

Lemma update_merges_fields_witness :
  let db := firestoreOf (appOf ∅) in
  let created :=
    FirestoreService.create (FirestoreService.new db) "items" sampleData (Some "doc1")
      (emptyRemote [] RejectMissing) in
  created.1 = inr ({[ "id" := VStr "doc1"; "a" := VNum 1; "b" := VNum 2 ]} : JsObject) ∧
  (FirestoreService.update (FirestoreService.new db) "items" "doc1" samplePatch created.2).1
    = inr ({[ "id" := VStr "doc1"; "a" := VNum 1; "b" := VNum 3 ]} : JsObject).
Proof.
  intros db created. split; [by vm_compute|].
  destruct (proj1 (update_merges_fields db "items") "doc1" sampleData samplePatch created.2)
    as (w' & -> & _); by vm_compute.
Defined.

Lemma query_without_constraints_is_getAll_witness :
  ∃ docs,
    (FirestoreService.query (FirestoreService.new (firestoreOf (appOf ∅)))
       "users" [] sampleRemote).1 = inr docs ∧
    (FirestoreService.getAll (FirestoreService.new (firestoreOf (appOf ∅)))
       "users" sampleRemote).1 = inr docs ∧
    length docs = 2.
Proof.
  destruct (proj2 (proj2 (query_without_constraints_is_getAll
                            (firestoreOf (appOf ∅)) "users" sampleRemote)) eq_refl)
    as (docs & Hq & Hg & _).
  exists docs. split; [done|]. split; [done|].
  vm_compute in Hq. by injection Hq as <-.
Defined.

(** C8, as worded, does not hold: the error a failing [delete] raises
    carries the operation and the backend fault, but neither the collection
    nor the identifier; two deletions of different targets that meet the same
    fault raise the same error. *)
Lemma delete_failure_names_no_target :
  let this := FirestoreService.new (firestoreOf (appOf ∅)) in
  let w := emptyRemote [Some permissionDenied] RejectMissing in
  failure (FirestoreService.delete this "users" "u1" w) =
    Some (newError
            "Error deleting document: FirebaseError: Missing or insufficient permissions.") ∧
  failure (FirestoreService.delete this "orders" "o9" w) =
    failure (FirestoreService.delete this "users" "u1" w) ∧
  occursIn "users"
    "Error deleting document: FirebaseError: Missing or insufficient permissions." = false ∧
  occursIn "u1"
    "Error deleting document: FirebaseError: Missing or insufficient permissions." = false.
Proof. by vm_compute. Qed.

Section Failures.

Lemma failure_tryCatch_rethrow {A} (prefix : string) (body : Eff Remote A) (w : Remote) :
  failure (tryCatch body (rethrow prefix) w) =
    (λ e, newError (prefix +:+ toString e)) <$> failure (body w).
Proof.
  unfold failure, tryCatch. by destruct (body w) as [[e|a] w'].
Qed.

End Failures.

(** Case analysis on the answer of the backend to the pending call. *)
Ltac answer w :=
  let e := fresh "e" in
  let Hf := fresh "Hf" in
  destruct (nextFault w) as [e|] eqn:Hf;
  [ rewrite (backendTurn_reject _ e) by exact Hf
  | rewrite backendTurn_through by exact Hf ].

(** C8, amended. A failing operation of the document client never
    swallows the failure: whatever the SDK calls inside it throw is caught
    and re-raised as a new error whose message is the prefix naming the
    operation followed by the string form of the underlying failure.  For
    create, read, delete, getAll and query that is exactly a rejection of
    the single backend call; for update, a failure of either of its two SDK
    calls.  The collection-scoped client raises the same errors. *)
Theorem failures_are_wrapped_and_rethrown (db : Firestore) (c i : string) (data : JsObject)
    (customId : option string) (conditions : list QueryConstraint) (w : Remote) :
  let this := FirestoreService.new db in
  let scoped := FirestoreServiceInstance.new db c in
  let wrapped (prefix : string) (underlying : option JsThrown) :=
    (λ e, newError (prefix +:+ toString e)) <$> underlying in
  (failure (FirestoreService.create this c data customId w)
     = wrapped "Error creating document: " (nextFault w) ∧
   failure (FirestoreService.read this c i w)
     = wrapped "Error reading document: " (nextFault w) ∧
   failure (FirestoreService.delete this c i w)
     = wrapped "Error deleting document: " (nextFault w) ∧
   failure (FirestoreService.getAll this c w)
     = wrapped "Error getting all documents: " (nextFault w) ∧
   failure (FirestoreService.query this c conditions w)
     = wrapped "Error querying documents: " (nextFault w) ∧
   failure (FirestoreService.update this c i data w)
     = wrapped "Error updating document: "
         (failure ((updateDoc (doc db c i) data ;; getDoc (doc db c i)) w))) ∧
  (failure (FirestoreServiceInstance.create scoped data customId w)
     = failure (FirestoreService.create this c data customId w) ∧
   failure (FirestoreServiceInstance.read scoped i w)
     = failure (FirestoreService.read this c i w) ∧
   failure (FirestoreServiceInstance.delete scoped i w)
     = failure (FirestoreService.delete this c i w) ∧
   failure (FirestoreServiceInstance.getAll scoped w)
     = failure (FirestoreService.getAll this c w) ∧
   failure (FirestoreServiceInstance.query scoped conditions w)
     = failure (FirestoreService.query this c conditions w) ∧
   failure (FirestoreServiceInstance.update scoped i data w)
     = failure (FirestoreService.update this c i data w)).
Proof.
  intros this scoped wrapped. split.
  - repeat split.
    + unfold FirestoreService.create. rewrite failure_tryCatch_rethrow. f_equal.
      unfold setDoc, docAuto, bind, ret.
      destruct (truthyString customId) as [j|]; by answer w.
    + unfold FirestoreService.read. rewrite failure_tryCatch_rethrow. f_equal.
      unfold getDoc, bind. answer w; [done|].
      unfold snapshotExists; cbn [snapshotData]. by destruct (lookupDoc _ _ _).
    + unfold FirestoreService.delete. rewrite failure_tryCatch_rethrow. f_equal.
      unfold deleteDoc, bind. by answer w.
    + unfold FirestoreService.getAll. rewrite failure_tryCatch_rethrow. f_equal.
      unfold getDocs, consoleLog, bind. by answer w.
    + unfold FirestoreService.query. rewrite failure_tryCatch_rethrow. f_equal.
      unfold getDocs, bind. by answer w.
    + unfold FirestoreService.update. rewrite failure_tryCatch_rethrow. f_equal.
      cbn [FirestoreService.db FirestoreService.new this]. unfold bind.
      destruct (updateDoc (doc db c i) data w) as [[e|[]] w1]; [done|].
      by destruct (getDoc (doc db c i) w1) as [[e|snap] w2].
  - repeat split; try reflexivity.
    subst this scoped. unfold failure. by rewrite scoped_getAll_result.
Qed.


(** * Further properties of the document client *)

Section StoreFacts.

Lemma dropDoc_lookup (w : Remote) (c i : string) : lookupDoc (dropDoc c i w) c i = None.
Proof.
  unfold lookupDoc, dropDoc, withCollections; simpl.
  rewrite lookup_alter. case_decide; [|done].
  destruct (collections w !! c) as [docs|]; simpl; [|done].
  apply lookup_delete_eq.
Qed.

Lemma dropDoc_lookup_other (w : Remote) (c i c' i' : string) :
  (c, i) ≠ (c', i') → lookupDoc (dropDoc c i w) c' i' = lookupDoc w c' i'.
Proof.
  intros Hne. unfold lookupDoc, dropDoc, withCollections; simpl.
  rewrite lookup_alter. case_decide as Hc; [subst c'|done].
  destruct (collections w !! c) as [docs|]; simpl; [|done].
  apply lookup_delete_ne. congruence.
Qed.

Lemma dropDoc_absent (w : Remote) (c i : string) :
  lookupDoc w c i = None → dropDoc c i w = w.
Proof.
  intros Hnone. unfold dropDoc, withCollections.
  assert (alter (base.delete i) c (collections w) = collections w) as ->.
  { apply map_eq. intros c'. rewrite lookup_alter. case_decide as Hc; [subst c'|done].
    unfold lookupDoc in Hnone.
    destruct (collections w !! c) as [docs|]; simpl in *; [|done].
    f_equal. by apply delete_id. }
  by destruct w.
Qed.

Lemma calm_two (w : Remote) :
  calm 2 w = true →
  nextFault w = None ∧ ∀ w', pending w' = tail (pending w) → nextFault w' = None.
Proof.
  intros H. apply calm_step in H as [Hf H]. split; [done|].
  intros w' Hp. by apply (calm_step 0), H.
Qed.

Lemma calm_one (w : Remote) : nextFault w = None → calm 1 w = true.
Proof.
  unfold calm, nextFault. by destruct (pending w) as [|[e|] rest].
Qed.

Lemma delete_outcome (this : FirestoreService.t) (c i : string) (w : Remote) :
  FirestoreService.delete this c i w =
    match nextFault w with
    | Some e => (inl (newError ("Error deleting document: " +:+ toString e)), settle w)
    | None => (inr (), dropDoc c i (settle w))
    end.
Proof.
  unfold FirestoreService.delete, tryCatch, deleteDoc, bind.
  destruct (nextFault w) as [e|] eqn:Hf.
  - by rewrite (backendTurn_reject w e).
  - by rewrite backendTurn_through.
Qed.

Lemma withId_lookup (i : string) (data : JsObject) (k : string) :
  withId i data !! k =
    if decide (k = "id") then Some (default (VStr i) (data !! "id")) else data !! k.
Proof.
  unfold withId. case_decide as Hk.
  - subst k. destruct (data !! "id") as [v|] eqn:Hid; simpl.
    + by apply lookup_union_Some_l.
    + rewrite lookup_union_r by done. apply lookup_singleton_eq.
  - destruct (data !! k) as [v|] eqn:Hd.
    + by apply lookup_union_Some_l.
    + rewrite lookup_union_r by done. by apply lookup_singleton_ne.
Qed.

End StoreFacts.

(** X1. Round trip: when the backend answers, a document just created
    reads back as exactly the data given (whatever was stored under that
    identifier before), while [create] itself returned that data tagged
    with the identifier; a truthy custom identifier is the one used. *)
Theorem create_then_read (this : FirestoreService.t) (c : string) (data : JsObject)
    (customId : option string) (w : Remote) :
  calm 2 w = true →
  ∃ i w1,
    FirestoreService.create this c data customId w = (inr (withId i data), w1) ∧
    FirestoreService.read this c i w1 = (inr (Some data), settle w1) ∧
    (∀ j, truthyString customId = Some j → i = j).
Proof.
  intros Hcalm. apply calm_two in Hcalm as [Hf Hnext].
  destruct (create_outcome this c data customId w (calm_one w Hf))
    as (i & w1 & Hcreate & Hstored & Hpending & Hcustom).
  exists i, w1. split; [done|]. split; [|done].
  by rewrite read_outcome, (Hnext w1 Hpending), Hstored.
Qed.

Lemma create_then_read_witness :
  ∃ i w1,
    FirestoreService.create (FirestoreService.new (firestoreOf (appOf ∅)))
      "users" sampleData (Some "u7") sampleRemote = (inr (withId i sampleData), w1) ∧
    FirestoreService.read (FirestoreService.new (firestoreOf (appOf ∅)))
      "users" i w1 = (inr (Some sampleData), settle w1) ∧
    (∀ j, truthyString (Some "u7") = Some j → i = j).
Proof.
  apply (create_then_read (FirestoreService.new (firestoreOf (appOf ∅)))
           "users" sampleData (Some "u7") sampleRemote).
  reflexivity.
Defined.

(** X2. When the backend answers, [delete] succeeds whether or not the
    document exists, a [read] of that identifier afterwards returns null,
    and every other document is still there. *)
Theorem delete_then_read (this : FirestoreService.t) (c i : string) (w : Remote) :
  calm 2 w = true →
  ∃ w1,
    FirestoreService.delete this c i w = (inr (), w1) ∧
    FirestoreService.read this c i w1 = (inr None, settle w1) ∧
    (∀ c' i', (c, i) ≠ (c', i') → lookupDoc w1 c' i' = lookupDoc w c' i').
Proof.
  intros Hcalm. apply calm_two in Hcalm as [Hf Hnext].
  exists (dropDoc c i (settle w)).
  rewrite delete_outcome, Hf. split; [done|]. split.
  - by rewrite read_outcome, (Hnext (dropDoc c i (settle w)) eq_refl), dropDoc_lookup.
  - intros c' i' Hne. by rewrite dropDoc_lookup_other.
Qed.

Lemma delete_then_read_witness :
  ∃ w1,
    FirestoreService.delete (FirestoreService.new (firestoreOf (appOf ∅)))
      "users" "u1" sampleRemote = (inr (), w1) ∧
    FirestoreService.read (FirestoreService.new (firestoreOf (appOf ∅)))
      "users" "u1" w1 = (inr None, settle w1) ∧
    (∀ c' i', ("users", "u1") ≠ (c', i') → lookupDoc w1 c' i' = lookupDoc sampleRemote c' i').
Proof.
  apply (delete_then_read (FirestoreService.new (firestoreOf (appOf ∅)))
           "users" "u1" sampleRemote).
  reflexivity.
Defined.

(** X3. Deleting an identifier that holds no document is not an error and
    changes nothing in the store; hence a second [delete] of the same
    identifier succeeds and leaves the store as the first one left it. *)
Theorem delete_is_idempotent (this : FirestoreService.t) (c i : string) (w : Remote) :
  (nextFault w = None → lookupDoc w c i = None →
     FirestoreService.delete this c i w = (inr (), settle w)) ∧
  (calm 2 w = true →
     ∃ w1, FirestoreService.delete this c i w = (inr (), w1) ∧
           FirestoreService.delete this c i w1 = (inr (), settle w1)).
Proof.
  split.
  - intros Hf Hnone. rewrite delete_outcome, Hf. f_equal.
    apply dropDoc_absent. by rewrite lookupDoc_settle.
  - intros Hcalm. apply calm_two in Hcalm as [Hf Hnext].
    exists (dropDoc c i (settle w)). rewrite !delete_outcome, Hf.
    rewrite (Hnext (dropDoc c i (settle w)) eq_refl). split; [done|]. f_equal.
    apply dropDoc_absent. rewrite lookupDoc_settle. apply dropDoc_lookup.
Qed.

Lemma delete_is_idempotent_witness :
  FirestoreService.delete (FirestoreService.new (firestoreOf (appOf ∅)))
    "users" "nobody" sampleRemote = (inr (), settle sampleRemote) ∧
  ∃ w1, FirestoreService.delete (FirestoreService.new (firestoreOf (appOf ∅)))
          "users" "u1" sampleRemote = (inr (), w1) ∧
        FirestoreService.delete (FirestoreService.new (firestoreOf (appOf ∅)))
          "users" "u1" w1 = (inr (), settle w1).
Proof.
  split.
  - apply (proj1 (delete_is_idempotent (FirestoreService.new (firestoreOf (appOf ∅)))
                    "users" "nobody" sampleRemote)); reflexivity.
  - apply (proj2 (delete_is_idempotent (FirestoreService.new (firestoreOf (appOf ∅)))
                    "users" "u1" sampleRemote)); reflexivity.
Defined.

(** X4. [read], [getAll] and [query] never write: whether they return or
    raise, every document of the store and the identifier supply are as
    before. *)
Theorem reads_leave_the_store (this : FirestoreService.t) (c i : string)
    (conditions : list QueryConstraint) (w : Remote) :
  (collections (FirestoreService.read this c i w).2 = collections w ∧
   autoIds (FirestoreService.read this c i w).2 = autoIds w) ∧
  (collections (FirestoreService.getAll this c w).2 = collections w ∧
   autoIds (FirestoreService.getAll this c w).2 = autoIds w) ∧
  (collections (FirestoreService.query this c conditions w).2 = collections w ∧
   autoIds (FirestoreService.query this c conditions w).2 = autoIds w).
Proof.
  split; [|split].
  - rewrite read_outcome. by destruct (nextFault w).
  - unfold FirestoreService.getAll, tryCatch, getDocs, consoleLog, bind.
    destruct (nextFault w) as [e|] eqn:Hf.
    + by rewrite (backendTurn_reject w e).
    + by rewrite backendTurn_through.
  - unfold FirestoreService.query, tryCatch, getDocs, bind.
    destruct (nextFault w) as [e|] eqn:Hf.
    + by rewrite (backendTurn_reject w e).
    + by rewrite backendTurn_through.
Qed.

(** X5. A write the backend rejects is not applied: when the pending
    backend call is rejected, [create], [update] and [delete] raise and
    leave every document as it was. *)
Theorem rejected_write_changes_nothing (this : FirestoreService.t) (c i : string)
    (data : JsObject) (customId : option string) (w : Remote) (e : JsThrown) :
  nextFault w = Some e →
  (failure (FirestoreService.create this c data customId w)
     = Some (newError ("Error creating document: " +:+ toString e)) ∧
   collections (FirestoreService.create this c data customId w).2 = collections w) ∧
  (FirestoreService.update this c i data w
     = (inl (newError ("Error updating document: " +:+ toString e)), settle w)) ∧
  (FirestoreService.delete this c i w
     = (inl (newError ("Error deleting document: " +:+ toString e)), settle w)).
Proof.
  intros Hf. split; [|split].
  - unfold FirestoreService.create, tryCatch, setDoc, docAuto, bind, ret.
    destruct (truthyString customId) as [j|];
      rewrite (backendTurn_reject _ e) by exact Hf; done.
  - unfold FirestoreService.update, tryCatch, updateDoc, bind.
    by rewrite (backendTurn_reject w e).
  - by rewrite delete_outcome, Hf.
Qed.

Lemma rejected_write_changes_nothing_witness :
  FirestoreService.update (FirestoreService.new (firestoreOf (appOf ∅)))
    "users" "u1" samplePatch (emptyRemote [Some permissionDenied] RejectMissing)
  = (inl (newError ("Error updating document: " +:+ toString permissionDenied)),
     settle (emptyRemote [Some permissionDenied] RejectMissing)).
Proof.
  apply (rejected_write_changes_nothing
           (FirestoreService.new (firestoreOf (appOf ∅))) "users" "u1" samplePatch None
           (emptyRemote [Some permissionDenied] RejectMissing) permissionDenied).
  reflexivity.
Defined.

(** X6. [update] is a write followed by a separate re-read: when the
    write goes through and the re-read is rejected, [update] raises the
    update error although the merged document is already stored. *)
Theorem update_not_atomic (this : FirestoreService.t) (c i : string) (old partial : JsObject)
    (w : Remote) (e : JsThrown) (rest : list (option JsThrown)) :
  lookupDoc w c i = Some old →
  pending w = None :: Some e :: rest →
  ∃ w',
    FirestoreService.update this c i partial w
      = (inl (newError ("Error updating document: " +:+ toString e)), w') ∧
    lookupDoc w' c i = Some (partial ∪ old).
Proof.
  intros Hold Hp.
  exists (settle (putDoc c i (partial ∪ old) (settle w))).
  split; [|by rewrite lookupDoc_settle, lookupDoc_putDoc].
  unfold FirestoreService.update, tryCatch, updateDoc, getDoc, bind.
  rewrite backendTurn_through by (unfold nextFault; by rewrite Hp).
  cbn [doc collection docParent collPath docId].
  rewrite lookupDoc_settle, Hold.
  rewrite (backendTurn_reject _ e); [done|].
  unfold nextFault, putDoc, withCollections, settle, withPending; simpl. by rewrite Hp.
Qed.

Lemma update_not_atomic_witness :
  ∃ w',
    FirestoreService.update (FirestoreService.new (firestoreOf (appOf ∅)))
      "items" "doc1" samplePatch
      (putDoc "items" "doc1" sampleData
         (emptyRemote [None; Some permissionDenied] RejectMissing))
    = (inl (newError ("Error updating document: " +:+ toString permissionDenied)), w') ∧
    lookupDoc w' "items" "doc1" = Some (samplePatch ∪ sampleData).
Proof.
  apply (update_not_atomic (FirestoreService.new (firestoreOf (appOf ∅)))
           "items" "doc1" sampleData samplePatch
           (putDoc "items" "doc1" sampleData
              (emptyRemote [None; Some permissionDenied] RejectMissing))
           permissionDenied []).
  - by vm_compute.
  - reflexivity.
Defined.

(** X7. [update] adds no existence check of its own: on an identifier
    that holds no document the outcome is the backend's.  If the backend
    rejects such an update, [update] raises the update error and nothing is
    stored; if it creates the document, [update] returns a document made
    of the partial data alone. *)
Theorem update_on_missing_document (this : FirestoreService.t) (c i : string)
    (partial : JsObject) (w : Remote) :
  lookupDoc w c i = None →
  (nextFault w = None → onMissing w = RejectMissing →
     FirestoreService.update this c i partial w =
       (inl (newError ("Error updating document: " +:+
                       toString (ErrorObject "FirebaseError" ("No document to update: " +:+ i)))),
        settle w)) ∧
  (calm 2 w = true → onMissing w = CreateOnMissing →
     ∃ w', FirestoreService.update this c i partial w = (inr (withId i partial), w') ∧
           lookupDoc w' c i = Some partial).
Proof.
  intros Hnone. split.
  - intros Hf Hpol.
    unfold FirestoreService.update, tryCatch, updateDoc, bind.
    rewrite backendTurn_through by done.
    cbn [doc collection docParent collPath docId].
    rewrite lookupDoc_settle, Hnone.
    change (onMissing (settle w)) with (onMissing w). by rewrite Hpol.
  - intros Hcalm Hpol. apply calm_two in Hcalm as [Hf Hnext].
    exists (settle (putDoc c i partial (settle w))).
    split; [|by rewrite lookupDoc_settle, lookupDoc_putDoc].
    unfold FirestoreService.update, tryCatch, updateDoc, getDoc, bind.
    rewrite backendTurn_through by done.
    cbn [doc collection docParent collPath docId].
    rewrite lookupDoc_settle, Hnone.
    change (onMissing (settle w)) with (onMissing w). rewrite Hpol.
    rewrite backendTurn_through by (by apply Hnext).
    by rewrite lookupDoc_settle, lookupDoc_putDoc.
Qed.

Lemma update_on_missing_document_witness :
  FirestoreService.update (FirestoreService.new (firestoreOf (appOf ∅)))
    "users" "nobody" samplePatch sampleRemote =
    (inl (newError "Error updating document: FirebaseError: No document to update: nobody"),
     settle sampleRemote) ∧
  ∃ w', FirestoreService.update (FirestoreService.new (firestoreOf (appOf ∅)))
          "users" "nobody" samplePatch (emptyRemote [] CreateOnMissing)
        = (inr (withId "nobody" samplePatch), w') ∧
        lookupDoc w' "users" "nobody" = Some samplePatch.
Proof.
  split.
  - apply (proj1 (update_on_missing_document
                    (FirestoreService.new (firestoreOf (appOf ∅)))
                    "users" "nobody" samplePatch sampleRemote eq_refl)); reflexivity.
  - apply (proj2 (update_on_missing_document
                    (FirestoreService.new (firestoreOf (appOf ∅)))
                    "users" "nobody" samplePatch (emptyRemote [] CreateOnMissing) eq_refl));
      reflexivity.
Defined.

(** X8. The identifier put on a returned document is written before the
    spread of the data, so a field called [id] in the data wins: what
    [create] returns has, under [id], the data's own [id] field when there
    is one and the identifier of the stored document only otherwise; all
    other fields are those of the data. *)
Theorem create_result_id_field (this : FirestoreService.t) (c : string) (data : JsObject)
    (customId : option string) (w : Remote) :
  nextFault w = None →
  ∃ i document w1,
    FirestoreService.create this c data customId w = (inr document, w1) ∧
    lookupDoc w1 c i = Some data ∧
    document !! "id" = Some (default (VStr i) (data !! "id")) ∧
    (∀ k, k ≠ "id" → document !! k = data !! k).
Proof.
  intros Hf.
  destruct (create_outcome this c data customId w (calm_one w Hf))
    as (i & w1 & Hcreate & Hstored & _ & _).
  exists i, (withId i data), w1. split; [done|]. split; [done|]. split.
  - rewrite withId_lookup. by case_decide.
  - intros k Hk. rewrite withId_lookup. by case_decide.
Qed.

Lemma create_result_id_field_witness :
  ∃ i document w1,
    FirestoreService.create (FirestoreService.new (firestoreOf (appOf ∅)))
      "users" {[ "id" := VStr "mine" ]} (Some "u7") sampleRemote = (inr document, w1) ∧
    lookupDoc w1 "users" i = Some ({[ "id" := VStr "mine" ]} : JsObject) ∧
    document !! "id"
      = Some (default (VStr i) (({[ "id" := VStr "mine" ]} : JsObject) !! "id")) ∧
    (∀ k, k ≠ "id" → document !! k = ({[ "id" := VStr "mine" ]} : JsObject) !! k).
Proof.
  apply (create_result_id_field (FirestoreService.new (firestoreOf (appOf ∅)))
           "users" {[ "id" := VStr "mine" ]} (Some "u7") sampleRemote).
  reflexivity.
Defined.

(** X9. The custom identifier is used only when truthy: an empty string
    is treated like an omitted one and the store generates the identifier;
    a non-empty one names the stored document and the identifier supply is
    not drawn from. *)
Theorem create_custom_id_truthiness (this : FirestoreService.t) (c : string) (data : JsObject)
    (w : Remote) :
  FirestoreService.create this c data (Some "") w = FirestoreService.create this c data None w ∧
  (∀ j, j ≠ "" → nextFault w = None →
     FirestoreService.create this c data (Some j) w
       = (inr (withId j data), putDoc c j data (settle w))) ∧
  (nextFault w = None →
     autoIds (FirestoreService.create this c data None w).2 = S (autoIds w)).
Proof.
  split; [reflexivity|]. split.
  - intros j Hj Hf.
    unfold FirestoreService.create, tryCatch, setDoc, bind, truthyString.
    rewrite decide_False by done. unfold ret.
    by rewrite backendTurn_through.
  - intros Hf.
    unfold FirestoreService.create, tryCatch, setDoc, docAuto, bind, truthyString.
    by rewrite backendTurn_through by exact Hf.
Qed.

Lemma create_custom_id_truthiness_witness :
  FirestoreService.create (FirestoreService.new (firestoreOf (appOf ∅)))
    "users" sampleData (Some "u7") sampleRemote
  = (inr (withId "u7" sampleData), putDoc "users" "u7" sampleData (settle sampleRemote)) ∧
  autoIds (FirestoreService.create (FirestoreService.new (firestoreOf (appOf ∅)))
             "users" sampleData None sampleRemote).2 = S (autoIds sampleRemote).
Proof.
  split.
  - apply (proj1 (proj2 (create_custom_id_truthiness
                           (FirestoreService.new (firestoreOf (appOf ∅)))
                           "users" sampleData sampleRemote))); [done|reflexivity].
  - apply (proj2 (proj2 (create_custom_id_truthiness
                           (FirestoreService.new (firestoreOf (appOf ∅)))
                           "users" sampleData sampleRemote))); reflexivity.
Defined.

(** X10. When the backend answers, [getAll] returns one document per
    document of the collection (none for a collection that was never
    written); and provided no stored document carries a field called
    [id], the [id] fields of the returned documents are pairwise
    distinct. *)
Theorem getAll_one_per_document (this : FirestoreService.t) (c : string) (w : Remote) :
  nextFault w = None →
  ∃ docs,
    (FirestoreService.getAll this c w).1 = inr docs ∧
    length docs = size (default ∅ (collections w !! c)) ∧
    (collections w !! c = None → docs = []) ∧
    ((∀ i d, lookupDoc w c i = Some d → d !! "id" = None) →
       NoDup ((λ document : JsObject, document !! "id") <$> docs)).
Proof.
  intros Hf. rewrite getAll_outcome, Hf. eexists. split; [done|].
  split; [by rewrite length_fmap, length_map_to_list|].
  split; [by intros ->|].
  intros Hplain. rewrite <- list_fmap_compose.
  assert (∀ p, p ∈ map_to_list (default ∅ (collections w !! c)) →
               withId p.1 p.2 !! "id" = Some (VStr p.1)) as Htag.
  { intros [i d] Hin. apply elem_of_map_to_list in Hin.
    rewrite withId_lookup, decide_True by done. simpl.
    rewrite (Hplain i d); [done|].
    unfold lookupDoc. destruct (collections w !! c) as [docs|]; simpl in *; [done|].
    by rewrite lookup_empty in Hin. }
  apply NoDup_fmap_2_strong; [|apply NoDup_map_to_list].
  intros [i d] [i' d'] Hin Hin'. unfold compose.
  rewrite (Htag _ Hin), (Htag _ Hin'). simpl. intros [= ->].
  apply elem_of_map_to_list in Hin, Hin'. congruence.
Qed.

Lemma getAll_one_per_document_witness :
  ∃ docs,
    (FirestoreService.getAll (FirestoreService.new (firestoreOf (appOf ∅)))
       "users" sampleRemote).1 = inr docs ∧
    length docs = 2 ∧
    NoDup ((λ document : JsObject, document !! "id") <$> docs).
Proof.
  destruct (getAll_one_per_document (FirestoreService.new (firestoreOf (appOf ∅)))
              "users" sampleRemote eq_refl) as (docs & Hdocs & Hlen & _ & Hdup).
  exists docs. split; [done|]. split; [done|]. apply Hdup.
  intros i d. unfold lookupDoc, sampleRemote; simpl.
  rewrite lookup_singleton_eq; simpl.
  destruct (decide (i = "u1")) as [->|H1]; [by intros [= <-]|].
  destruct (decide (i = "u2")) as [->|H2]; [by intros [= <-]|].
  by rewrite lookup_insert_ne, lookup_singleton_ne.
Defined.

(** X12. The collection-scoped client is the generic client with the
    collection bound: [create], [read], [update], [delete] and [query]
    agree in result and in effect, and [getAll] agrees in result and in
    what is stored.  The one difference is the console: the generic
    [getAll] logs the documents it returns, the scoped one logs nothing. *)
Theorem scoped_client_is_generic_client_bound (db : Firestore) (c i : string)
    (data : JsObject) (customId : option string) (conditions : list QueryConstraint)
    (w : Remote) :
  let this := FirestoreService.new db in
  let scoped := FirestoreServiceInstance.new db c in
  FirestoreServiceInstance.create scoped data customId w
    = FirestoreService.create this c data customId w ∧
  FirestoreServiceInstance.read scoped i w = FirestoreService.read this c i w ∧
  FirestoreServiceInstance.update scoped i data w = FirestoreService.update this c i data w ∧
  FirestoreServiceInstance.delete scoped i w = FirestoreService.delete this c i w ∧
  FirestoreServiceInstance.query scoped conditions w
    = FirestoreService.query this c conditions w ∧
  (FirestoreServiceInstance.getAll scoped w).1 = (FirestoreService.getAll this c w).1 ∧
  collections (FirestoreServiceInstance.getAll scoped w).2
    = collections (FirestoreService.getAll this c w).2 ∧
  console (FirestoreServiceInstance.getAll scoped w).2 = console w ∧
  console (FirestoreService.getAll this c w).2 =
    match (FirestoreService.getAll this c w).1 with
    | inr docs => (console w ++ [ConsoleLog "Documents" docs])%list
    | inl _ => console w
    end.
Proof.
  intros this scoped. do 5 (split; [reflexivity|]).
  subst this scoped.
  unfold FirestoreServiceInstance.getAll, FirestoreService.getAll, tryCatch, getDocs,
    consoleLog, bind.
  cbn [FirestoreServiceInstance.db FirestoreServiceInstance.collectionName
       FirestoreServiceInstance.new FirestoreService.db FirestoreService.new].
  destruct (nextFault w) as [e|] eqn:Hf.
  - by rewrite (backendTurn_reject w e).
  - by rewrite backendTurn_through.
Qed.

(** * Further properties of the session manager *)

Lemma handleAuthError_noSession :
  FirebaseAuthService.handleAuthError noSession = noSession.
Proof. reflexivity. Qed.

(** X15. The four methods that act on the current user
    ([sendVerificationEmail], [updateUserProfile], [updateUserEmail],
    [updateUserPassword]) fail, when nobody is signed in, with the error
    [No user is currently signed in], and nothing reaches the identity
    backend. *)
Theorem session_methods_need_a_user (this : FirebaseAuthService.t) (w : AuthBackend)
    (newName newPhoto : option string) (newEmail newPassword : string) :
  currentUser (session w) = None →
  FirebaseAuthService.sendVerificationEmail this w = (inl noSession, w) ∧
  FirebaseAuthService.updateUserProfile this newName newPhoto w = (inl noSession, w) ∧
  FirebaseAuthService.updateUserEmail this newEmail w = (inl noSession, w) ∧
  FirebaseAuthService.updateUserPassword this newPassword w = (inl noSession, w).
Proof.
  intros Hnone.
  unfold FirebaseAuthService.sendVerificationEmail, FirebaseAuthService.updateUserProfile,
    FirebaseAuthService.updateUserEmail, FirebaseAuthService.updateUserPassword,
    tryCatch, bind, authCurrentUser.
  rewrite Hnone. unfold throw. fold noSession. by rewrite handleAuthError_noSession.
Qed.

Lemma session_methods_need_a_user_witness :
  FirebaseAuthService.sendVerificationEmail
    (FirebaseAuthService.new (authOf (appOf ∅))) (accepting None)
    = (inl noSession, accepting None) ∧
  FirebaseAuthService.updateUserProfile
    (FirebaseAuthService.new (authOf (appOf ∅))) (Some "John Doe") None (accepting None)
    = (inl noSession, accepting None) ∧
  FirebaseAuthService.updateUserEmail
    (FirebaseAuthService.new (authOf (appOf ∅))) "new@example.com" (accepting None)
    = (inl noSession, accepting None) ∧
  FirebaseAuthService.updateUserPassword
    (FirebaseAuthService.new (authOf (appOf ∅))) "newPassword123" (accepting None)
    = (inl noSession, accepting None).
Proof.
  apply (session_methods_need_a_user (FirebaseAuthService.new (authOf (appOf ∅)))
           (accepting None) (Some "John Doe") None "new@example.com" "newPassword123").
  reflexivity.
Defined.

(** X16. With a user signed in, each of those four methods sends exactly
    one request, about that user, whatever the backend then answers. *)
Theorem session_methods_act_on_current_user (this : FirebaseAuthService.t) (w : AuthBackend)
    (u : User) (newName newPhoto : option string) (newEmail newPassword : string) :
  currentUser (session w) = Some u →
  requests (FirebaseAuthService.sendVerificationEmail this w).2
    = (requests w ++ [SendEmailVerification u])%list ∧
  requests (FirebaseAuthService.updateUserProfile this newName newPhoto w).2
    = (requests w ++ [UpdateProfile u newName newPhoto])%list ∧
  requests (FirebaseAuthService.updateUserEmail this newEmail w).2
    = (requests w ++ [UpdateEmail u newEmail])%list ∧
  requests (FirebaseAuthService.updateUserPassword this newPassword w).2
    = (requests w ++ [UpdatePassword u newPassword])%list.
Proof.
  intros Hu.
  unfold FirebaseAuthService.sendVerificationEmail, FirebaseAuthService.updateUserProfile,
    FirebaseAuthService.updateUserEmail, FirebaseAuthService.updateUserPassword,
    tryCatch, bind, throw, authCurrentUser, sendEmailVerification, updateProfile, updateEmail,
    updatePassword, request.
  rewrite Hu. unfold bind. cbv beta iota zeta. repeat split.
  - destruct (verdict w (SendEmailVerification u)); reflexivity.
  - destruct (verdict w (UpdateProfile u newName newPhoto)); reflexivity.
  - destruct (verdict w (UpdateEmail u newEmail)); reflexivity.
  - destruct (verdict w (UpdatePassword u newPassword)); reflexivity.
Qed.

Lemma session_methods_act_on_current_user_witness :
  requests (FirebaseAuthService.sendVerificationEmail
              (FirebaseAuthService.new (authOf (appOf ∅)))
              (accepting (Some sampleUser))).2
    = ([] ++ [SendEmailVerification sampleUser])%list.
Proof.
  apply (session_methods_act_on_current_user
           (FirebaseAuthService.new (authOf (appOf ∅)))
           (accepting (Some sampleUser)) sampleUser None None "" "").
  reflexivity.
Defined.

(** X17. [registerWithEmail], [loginWithEmail], [logout] and
    [resetPassword] have no guard on the session: signed in or not, and
    whatever the backend answers, exactly one request is sent.  In
    particular [logout] with nobody signed in still calls the backend. *)
Theorem unguarded_methods_always_call_backend (this : FirebaseAuthService.t) (w : AuthBackend)
    (address password : string) :
  requests (FirebaseAuthService.registerWithEmail this address password w).2
    = (requests w
         ++ [CreateUserWithEmailAndPassword (FirebaseAuthService.auth this) address password])%list ∧
  requests (FirebaseAuthService.loginWithEmail this address password w).2
    = (requests w
         ++ [SignInWithEmailAndPassword (FirebaseAuthService.auth this) address password])%list ∧
  requests (FirebaseAuthService.logout this w).2
    = (requests w ++ [SignOut (FirebaseAuthService.auth this)])%list ∧
  requests (FirebaseAuthService.resetPassword this address w).2
    = (requests w ++ [SendPasswordResetEmail (FirebaseAuthService.auth this) address])%list.
Proof.
  unfold FirebaseAuthService.registerWithEmail, FirebaseAuthService.loginWithEmail,
    FirebaseAuthService.logout, FirebaseAuthService.resetPassword,
    tryCatch, bind, throw, ret, createUserWithEmailAndPassword, signInWithEmailAndPassword,
    signOut, sendPasswordResetEmail, request.
  unfold bind. cbv beta iota zeta. repeat split.
  - destruct (verdict w _); reflexivity.
  - destruct (verdict w _); reflexivity.
  - destruct (verdict w _); reflexivity.
  - destruct (verdict w _); reflexivity.
Qed.

(** X18. A request the backend rejects is reported through the
    normalizer: each method raises [handleAuthError] of the backend's
    error, and the session is left as it was (a failed sign-up or sign-in
    signs nobody in, a failed sign-out signs nobody out). *)
Theorem rejections_are_normalized (this : FirebaseAuthService.t) (w : AuthBackend)
    (e : JsThrown) (address password : string) :
  let auth := FirebaseAuthService.auth this in
  (verdict w (CreateUserWithEmailAndPassword auth address password) = Some e →
     FirebaseAuthService.registerWithEmail this address password w
       = turnedDown e (CreateUserWithEmailAndPassword auth address password) w) ∧
  (verdict w (SignInWithEmailAndPassword auth address password) = Some e →
     FirebaseAuthService.loginWithEmail this address password w
       = turnedDown e (SignInWithEmailAndPassword auth address password) w) ∧
  (verdict w (SignOut auth) = Some e →
     FirebaseAuthService.logout this w = turnedDown e (SignOut auth) w) ∧
  (verdict w (SendPasswordResetEmail auth address) = Some e →
     FirebaseAuthService.resetPassword this address w
       = turnedDown e (SendPasswordResetEmail auth address) w) ∧
  (∀ u, currentUser (session w) = Some u →
     (verdict w (SendEmailVerification u) = Some e →
        FirebaseAuthService.sendVerificationEmail this w
          = turnedDown e (SendEmailVerification u) w) ∧
     (∀ newName newPhoto, verdict w (UpdateProfile u newName newPhoto) = Some e →
        FirebaseAuthService.updateUserProfile this newName newPhoto w
          = turnedDown e (UpdateProfile u newName newPhoto) w) ∧
     (verdict w (UpdateEmail u address) = Some e →
        FirebaseAuthService.updateUserEmail this address w
          = turnedDown e (UpdateEmail u address) w) ∧
     (verdict w (UpdatePassword u password) = Some e →
        FirebaseAuthService.updateUserPassword this password w
          = turnedDown e (UpdatePassword u password) w)) ∧
  (∀ r, session (reached r w) = session w).
Proof.
  intros auth. subst auth.
  unfold FirebaseAuthService.registerWithEmail, FirebaseAuthService.loginWithEmail,
    FirebaseAuthService.logout, FirebaseAuthService.resetPassword,
    FirebaseAuthService.sendVerificationEmail, FirebaseAuthService.updateUserProfile,
    FirebaseAuthService.updateUserEmail, FirebaseAuthService.updateUserPassword,
    tryCatch, authCurrentUser, createUserWithEmailAndPassword,
    signInWithEmailAndPassword, signOut, sendPasswordResetEmail, sendEmailVerification,
    updateProfile, updateEmail, updatePassword, request, turnedDown, reached, throw.
  unfold bind. cbv beta iota zeta.
  repeat split; try (by intros ->).
  all: intros; simplify_eq/=;
    repeat match goal with H : currentUser _ = Some _ |- _ => rewrite H end;
    cbv beta iota zeta;
    repeat match goal with H : verdict _ _ = Some _ |- _ => rewrite H end; done.
Qed.

Lemma rejections_are_normalized_witness :
  FirebaseAuthService.loginWithEmail (FirebaseAuthService.new (authOf (appOf ∅)))
    "user@example.com" "password"
    (refusing (firebaseError "auth/wrong-password") None)
  = (inl (newError "Firebase: Error (auth/wrong-password)."),
     reached (SignInWithEmailAndPassword (authOf (appOf ∅))
                "user@example.com" "password")
       (refusing (firebaseError "auth/wrong-password") None)).
Proof.
  apply (proj1 (proj2 (rejections_are_normalized
                         (FirebaseAuthService.new (authOf (appOf ∅)))
                         (refusing (firebaseError "auth/wrong-password") None)
                         (firebaseError "auth/wrong-password")
                         "user@example.com" "password"))).
  reflexivity.
Defined.

Lemma rawCodes_spelled :
  rawCodes = [ "auth/email-already-in-use"; "auth/invalid-email"; "auth/operation-not-allowed";
               "auth/weak-password"; "auth/user-disabled"; "auth/user-not-found";
               "auth/wrong-password" ].
Proof. reflexivity. Qed.

(** X19. What the normalizer returns is always a plain [Error] whose
    message is none of the seven backend codes, and normalizing it again
    changes nothing: an error that crosses several methods of the session
    manager is not rewritten twice. *)
Theorem handleAuthError_normal_form (error : JsThrown) :
  ∃ message,
    FirebaseAuthService.handleAuthError error = newError message ∧
    (message ∉ rawCodes) ∧
    FirebaseAuthService.handleAuthError (newError message) = newError message.
Proof.
  rewrite rawCodes_spelled.
  destruct error as [name m| |];
    [|eexists; split; [reflexivity|]; split;
        [apply (bool_decide_unpack _); by vm_compute|reflexivity]..].
  unfold FirebaseAuthService.handleAuthError at 1. cbn [instanceofError errorMessage].
  repeat match goal with
         | |- context [String.eqb m ?label] =>
             destruct (String.eqb m label) eqn:?;
             [eexists; split; [reflexivity|]; split;
                [apply (bool_decide_unpack _); by vm_compute|reflexivity]|]
         end.
  exists m. split; [done|]. split.
  - rewrite !not_elem_of_cons. repeat split; try (by apply String.eqb_neq).
    apply not_elem_of_nil.
  - unfold FirebaseAuthService.handleAuthError, newError. cbn [instanceofError errorMessage].
    by repeat match goal with Hq : String.eqb _ _ = false |- _ => rewrite Hq; clear Hq end.
Qed.

(** X20. For a registered provider, [loginWithProvider] issues one
    sign-in with the registered strategy.  If the popup is rejected
    (closed, denied), the method raises the normalized error and nobody is
    signed in or out; if it resolves, the method returns the credential
    and the user of the popup is the current user. *)
Theorem loginWithProvider_popup_outcome (auth : Auth) (providerType : string)
    (provider : AuthProvider) (w : Identity) :
  FirebaseAuthService.providers (FirebaseAuthService.new auth) !! providerType = Some provider →
  (∀ e, popup w provider = inl e →
     FirebaseAuthService.loginWithProvider (FirebaseAuthService.new auth) providerType w =
       (inl (FirebaseAuthService.handleAuthError e),
        {| currentUser := currentUser w; popup := popup w;
           issued := (issued w ++ [SignInWithPopup auth provider])%list |})) ∧
  (∀ u, popup w provider = inr u →
     FirebaseAuthService.loginWithProvider (FirebaseAuthService.new auth) providerType w =
       (inr {| user := u |},
        {| currentUser := Some u; popup := popup w;
           issued := (issued w ++ [SignInWithPopup auth provider])%list |})).
Proof.
  intros Hp.
  unfold FirebaseAuthService.loginWithProvider, tryCatch. rewrite Hp.
  unfold signInWithPopup, throw. cbn [FirebaseAuthService.auth FirebaseAuthService.new].
  split; intros ? ->; reflexivity.
Qed.

Lemma loginWithProvider_popup_outcome_witness :
  FirebaseAuthService.loginWithProvider (FirebaseAuthService.new (authOf (appOf ∅)))
    "google"
    {| currentUser := None;
       popup := λ _, inl (ErrorObject "FirebaseError" "auth/user-disabled");
       issued := [] |}
  = (inl (newError "This user account has been disabled"),
     {| currentUser := None;
        popup := λ _, inl (ErrorObject "FirebaseError" "auth/user-disabled");
        issued := [SignInWithPopup (authOf (appOf ∅)) GoogleAuthProvider] |}).
Proof.
  apply (proj1 (loginWithProvider_popup_outcome (authOf (appOf ∅)) "google"
                  GoogleAuthProvider
                  {| currentUser := None;
                     popup := λ _, inl (ErrorObject "FirebaseError" "auth/user-disabled");
                     issued := [] |} eq_refl)
           (ErrorObject "FirebaseError" "auth/user-disabled")).
  reflexivity.
Defined.

(** X21. Session life cycle as the methods see it: after a sign-in the
    backend accepted, [getCurrentUser] is the user signed in and
    [sendVerificationEmail] goes to the backend for that user; after a
    sign-out the backend accepted, [getCurrentUser] is null and
    [sendVerificationEmail] fails for want of a user. *)
Theorem session_follows_login_and_logout (this : FirebaseAuthService.t) (w : AuthBackend)
    (address password : string) :
  (verdict w (SignInWithEmailAndPassword (FirebaseAuthService.auth this) address password) = None →
     ∃ w1,
       FirebaseAuthService.loginWithEmail this address password w
         = (inr {| user := accountOf w address |}, w1) ∧
       FirebaseAuthService.getCurrentUser this w1 = Some (accountOf w address) ∧
       requests (FirebaseAuthService.sendVerificationEmail this w1).2
         = (requests w1 ++ [SendEmailVerification (accountOf w address)])%list) ∧
  (verdict w (SignOut (FirebaseAuthService.auth this)) = None →
     ∃ w1,
       FirebaseAuthService.logout this w = (inr (), w1) ∧
       FirebaseAuthService.getCurrentUser this w1 = None ∧
       FirebaseAuthService.sendVerificationEmail this w1 = (inl noSession, w1)).
Proof.
  split; intros Hv; eexists.
  - unfold FirebaseAuthService.loginWithEmail, tryCatch, signInWithEmailAndPassword,
      request, bind. rewrite Hv. cbv beta iota zeta.
    split; [reflexivity|]. split; [reflexivity|].
    unfold FirebaseAuthService.sendVerificationEmail, tryCatch, bind, authCurrentUser,
      sendEmailVerification, request, throw.
    cbn [session withSession currentUser requests verdict accountOf].
    match goal with
    | |- context [verdict w (SendEmailVerification ?u)] =>
        destruct (verdict w (SendEmailVerification u)); reflexivity
    end.
  - unfold FirebaseAuthService.logout, tryCatch, signOut, request, bind. rewrite Hv.
    cbv beta iota zeta. split; [reflexivity|]. split; [reflexivity|].
    reflexivity.
Qed.

Lemma session_follows_login_and_logout_witness :
  ∃ w1,
    FirebaseAuthService.logout (FirebaseAuthService.new (authOf (appOf ∅)))
      (accepting (Some sampleUser)) = (inr (), w1) ∧
    FirebaseAuthService.getCurrentUser (FirebaseAuthService.new (authOf (appOf ∅))) w1
      = None ∧
    FirebaseAuthService.sendVerificationEmail
      (FirebaseAuthService.new (authOf (appOf ∅))) w1 = (inl noSession, w1).
Proof.
  apply (proj2 (session_follows_login_and_logout
                  (FirebaseAuthService.new (authOf (appOf ∅)))
                  (accepting (Some sampleUser)) "" "")).
  reflexivity.
Defined.

(** * How the operations of the document client compose *)

Lemma calm_three (w : Remote) :
  calm 3 w = true →
  calm 2 w = true ∧ ∀ w', pending w' = tail (pending w) → calm 2 w' = true.
Proof.
  intros H. split.
  - unfold calm in *. destruct (pending w) as [|[e|] [|[e'|] [|[e''|] rest]]]; done.
  - by apply calm_step.
Qed.

(** X22. A document just created is listed: when the backend answers,
    [getAll] on the collection after a [create] contains the very document
    [create] returned. *)
Theorem create_then_getAll (this : FirestoreService.t) (c : string) (data : JsObject)
    (customId : option string) (w : Remote) :
  calm 2 w = true →
  ∃ document w1 docs,
    FirestoreService.create this c data customId w = (inr document, w1) ∧
    (FirestoreService.getAll this c w1).1 = inr docs ∧
    document ∈ docs.
Proof.
  intros Hcalm. apply calm_two in Hcalm as [Hf Hnext].
  destruct (create_outcome this c data customId w (calm_one w Hf))
    as (i & w1 & Hcreate & Hstored & Hpending & _).
  exists (withId i data), w1. eexists. split; [done|].
  rewrite getAll_outcome, (Hnext w1 Hpending). split; [done|].
  apply list_elem_of_fmap. exists (i, data). split; [done|].
  apply elem_of_map_to_list. unfold lookupDoc in Hstored.
  destruct (collections w1 !! c) as [stored|]; simpl in *; done.
Qed.

Lemma create_then_getAll_witness :
  ∃ document w1 docs,
    FirestoreService.create (FirestoreService.new (firestoreOf (appOf ∅)))
      "users" sampleData None sampleRemote = (inr document, w1) ∧
    (FirestoreService.getAll (FirestoreService.new (firestoreOf (appOf ∅)))
       "users" w1).1 = inr docs ∧
    document ∈ docs.
Proof.
  apply (create_then_getAll (FirestoreService.new (firestoreOf (appOf ∅)))
           "users" sampleData None sampleRemote).
  reflexivity.
Defined.

(** X23. What [update] returns is what a [read] then finds: when the
    backend answers, reading the document after an [update] gives the
    merged data, of which the result of [update] is the identifier-tagged
    copy. *)
Theorem update_then_read (this : FirestoreService.t) (c i : string) (old partial : JsObject)
    (w : Remote) :
  lookupDoc w c i = Some old → calm 3 w = true →
  ∃ merged w1,
    FirestoreService.update this c i partial w = (inr (withId i merged), w1) ∧
    FirestoreService.read this c i w1 = (inr (Some merged), settle w1) ∧
    merged = partial ∪ old.
Proof.
  intros Hold Hcalm. apply calm_three in Hcalm as [Hcalm Hlater].
  exists (partial ∪ old), (settle (putDoc c i (partial ∪ old) (settle w))).
  split; [by apply update_outcome|]. split; [|done].
  rewrite read_outcome.
  specialize (Hlater (putDoc c i (partial ∪ old) (settle w)) eq_refl).
  apply calm_step in Hlater as [_ Hlater].
  specialize (Hlater (settle (putDoc c i (partial ∪ old) (settle w))) eq_refl).
  apply (calm_step 0) in Hlater as [-> _].
  by rewrite lookupDoc_settle, lookupDoc_putDoc.
Qed.

Lemma update_then_read_witness :
  ∃ merged w1,
    FirestoreService.update (FirestoreService.new (firestoreOf (appOf ∅)))
      "users" "u1" {[ "age" := VNum 31 ]} sampleRemote = (inr (withId "u1" merged), w1) ∧
    FirestoreService.read (FirestoreService.new (firestoreOf (appOf ∅)))
      "users" "u1" w1 = (inr (Some merged), settle w1) ∧
    merged = ({[ "age" := VNum 31 ]} : JsObject) ∪ {[ "name" := VStr "John Doe" ]}.
Proof.
  apply (update_then_read (FirestoreService.new (firestoreOf (appOf ∅)))
           "users" "u1" {[ "name" := VStr "John Doe" ]} {[ "age" := VNum 31 ]} sampleRemote).
  - by vm_compute.
  - reflexivity.
Defined.

Lemma handleAuthError_normal_form_witness :
  ∃ message,
    FirebaseAuthService.handleAuthError (ErrorObject "FirebaseError" "auth/weak-password")
      = newError message ∧
    (message ∉ rawCodes) ∧
    FirebaseAuthService.handleAuthError (newError message) = newError message.
Proof.
  apply (handleAuthError_normal_form (ErrorObject "FirebaseError" "auth/weak-password")).
Defined.
